(** * PHP Server Manager with VLAN support: supervisor and provisioner

  A shallow embedding of [app.go] (the process supervisor), of the VLAN
  manager (the network interface provisioner) and of the create handler of
  [handlers.go], with the properties of the specification stated over them;
  then of the other handlers, of the session authentication of [auth.go] and
  of the VLAN pool of the first [main.go], with the properties the code
  itself shows.

  Conventions of the embedding.
  - Go's [int] is the 64-bit signed integer of the linux/amd64 build; it is
    a [Z] and every arithmetic operation of the source is wrapped by
    [wrap_int].
  - [map[string]*Server] is a [gmap string ptr] together with a store
    [heap : list Server]: a [*Server] is an index into the store, so that
    two references to one record see each other's writes.
  - Every method runs under the receiver's mutex; it is one atomic step
    [state -> result * state].  The outcome of each operating system call
    (process start, kill, [ip] commands, file read, clock, random token) is
    an explicit argument of the step. *)

From Stdlib Require Import ZArith NArith Ascii String Lia.
From stdpp Require Import base option list strings gmap fin_maps.

Local Open Scope string_scope.
Local Open Scope list_scope.

(** ** The library functions of [strconv] and [strings] used by the source *)

Module strconv.

Definition max_int : Z := (2 ^ 63 - 1)%Z.
Definition min_int : Z := (- 2 ^ 63)%Z.

(** Two's complement wrap-around of a 64-bit [int]. *)
Definition wrap_int (z : Z) : Z := ((z + 2 ^ 63) mod 2 ^ 64 - 2 ^ 63)%Z.

Definition digit_char (d : N) : ascii := ascii_of_N (48 + d).

Definition digit_of (c : ascii) : option Z :=
  let n := Z.of_N (N_of_ascii c) in
  if ((48 <=? n) && (n <=? 57))%Z then Some (n - 48)%Z else None.

(** [formatBits]: the digits of [u], least significant first, pushed in
    front of [acc].  The loop runs once per decimal digit; [fuel] bounds
    it by the number of binary digits. *)
Fixpoint formatBits (fuel : nat) (u : N) (acc : string) : string :=
  match fuel with
  | O => acc
  | S fuel' =>
      let acc' := String (digit_char (u mod 10)) acc in
      if (u / 10 =? 0)%N then acc' else formatBits fuel' (u / 10) acc'
  end.

Definition format_uint (u : N) : string := formatBits (S (N.size_nat u)) u "".

(** [strconv.Itoa]. *)
Definition Itoa (i : Z) : string :=
  if (i <? 0)%Z then String "-" (format_uint (Z.abs_N i))
  else format_uint (Z.abs_N i).

Fixpoint parse_digits (acc : Z) (s : string) : option Z :=
  match s with
  | EmptyString => Some acc
  | String c s' =>
      match digit_of c with
      | Some d => parse_digits (acc * 10 + d)%Z s'
      | None => None
      end
  end.

(** [strconv.Atoi]: an optional sign, at least one decimal digit, and a
    value in the range of [int]; anything else is an error. *)
Definition Atoi (s : string) : option Z :=
  match s with
  | EmptyString => None
  | String c rest =>
      let neg := Ascii.eqb c "-" in
      let body := if neg || Ascii.eqb c "+" then rest else s in
      match body with
      | EmptyString => None
      | _ =>
          match parse_digits 0 body with
          | Some n =>
              let v := if neg then (- n)%Z else n in
              if ((min_int <=? v) && (v <=? max_int))%Z then Some v else None
          | None => None
          end
      end
  end.

End strconv.

Module strings.

(** [s] without the prefix [p], when [s] starts with [p]. *)
Fixpoint cut_prefix (p s : string) : option string :=
  match p, s with
  | EmptyString, _ => Some s
  | String a p', String b s' => if Ascii.eqb a b then cut_prefix p' s' else None
  | String _ _, EmptyString => None
  end.

(** [strings.HasPrefix]. *)
Definition HasPrefix (s p : string) : bool :=
  match cut_prefix p s with Some _ => true | None => false end.

(** [strings.Replace(s, old, new, 1)]: the leftmost occurrence of [old]
    is replaced, and [s] is returned as it is when there is none. *)
Fixpoint Replace1 (s old new : string) : string :=
  match cut_prefix old s with
  | Some rest => new +:+ rest
  | None =>
      match s with
      | EmptyString => EmptyString
      | String c s' => String c (Replace1 s' old new)
      end
  end.

(** [strings.HasSuffix]. *)
Fixpoint HasSuffix (s suffix : string) : bool :=
  if String.eqb s suffix then true
  else
    match s with
    | EmptyString => false
    | String _ s' => HasSuffix s' suffix
    end.

(** [strings.SplitN(s, " ", 2)] on a string with a space: what is before
    the first space and what is after it; [None] when [s] has no space and
    the result is the one-element slice. *)
Fixpoint split_space (s : string) : option (string * string) :=
  match s with
  | EmptyString => None
  | String c s' =>
      if Ascii.eqb c " " then Some (EmptyString, s')
      else
        match split_space s' with
        | Some (before, after) => Some (String c before, after)
        | None => None
        end
  end.

End strings.

(** ** Process supervisor ([app.go]) *)

Module Supervisor.
Import strconv.

(** [type Server struct]. *)
Record Server := mkServer {
  ID : string;
  Name : string;
  Port : string;
  Directory : string;
  Running : bool;
  VLANInterface : string;
  IPv6Address : string
}.

(** The zero value [Server{}]. *)
#[global] Instance Server_inhabited : Inhabited Server :=
  populate (mkServer "" "" "" "" false "" "").

(** A [*Server]: the index of the record in the store. *)
Abbreviation ptr := nat.

(** An [*exec.Cmd] as built by [exec.Command] and [cmd.Dir]. *)
Record Cmd := mkCmd {
  Path : string;
  Args : list string;
  Dir : string
}.

(** [type AppConfig struct], as read from or written to the file: the
    records by content.  A snapshot written by [saveConfig] has no [null]
    record and no [null] map, and only such snapshots are modelled. *)
Record AppConfig := mkAppConfig {
  Servers : gmap string Server;
  NextID : Z
}.

(** [type App struct].  [ctx], [mu] and [configPath] carry no state of
    their own here: each method is one atomic step, and the file the path
    names is an argument of [loadConfig]. *)
Record App := mkApp {
  heap : list Server;
  servers : gmap string ptr;
  nextID : Z;
  processes : gmap string Cmd
}.

(** What the operating system answers during one method call. *)
Record OS := mkOS {
  Username : string;      (* getCurrentUsername() *)
  Getwd : string;         (* os.Getwd() *)
  Start : Cmd → bool;     (* cmd.Start() == nil *)
  Kill : Cmd → bool       (* cmd.Process.Kill() == nil *)
}.

Definition NewApp : App := mkApp [] ∅ 1 ∅.

(** [server.f = v] through a pointer. *)
Definition set_Running (b : bool) (s : Server) : Server :=
  mkServer (ID s) (Name s) (Port s) (Directory s) b (VLANInterface s) (IPv6Address s).

Definition set_config (name port directory : string) (s : Server) : Server :=
  mkServer (ID s) name port directory (Running s) (VLANInterface s) (IPv6Address s).

Definition set_vlan (vlan_interface ipv6_address : string) (s : Server) : Server :=
  mkServer (ID s) (Name s) (Port s) (Directory s) (Running s) vlan_interface ipv6_address.

Definition load (a : App) (p : ptr) : Server := heap a !!! p.

Definition store (f : Server → Server) (p : ptr) (a : App) : App :=
  mkApp (alter f p (heap a)) (servers a) (nextID a) (processes a).

(** The outcome of [ioutil.ReadFile] followed by [json.Unmarshal]. *)
Inductive file_read :=
| ReadError
| UnmarshalError
| Decoded (config : AppConfig).

(** [json.Unmarshal] into [map[string]*Server]: one new record per entry. *)
Definition unmarshal_servers (h : list Server) (m : gmap string Server)
  : list Server * gmap string ptr :=
  map_fold (λ id s acc, (acc.1 ++ [s], <[id := length acc.1]> acc.2)) (h, ∅) m.

(** [for _, server := range a.servers { server.Running = false }]. *)
Definition stop_all (ps : gmap string ptr) (h : list Server) : list Server :=
  map_fold (λ _ p h', alter (set_Running false) p h') h ps.

Definition loadConfig (f : file_read) (a : App) : App :=
  match f with
  | ReadError => a
  | UnmarshalError => a
  | Decoded config =>
      let '(h, ps) := unmarshal_servers (heap a) (Servers config) in
      mkApp (stop_all ps h) ps (NextID config) (processes a)
  end.

(** [startup]: [loadConfig] on the application [NewApp] built. *)
Definition startup (f : file_read) : App := loadConfig f NewApp.

(** [saveConfig]: the value handed to [json.MarshalIndent]. *)
Definition saveConfig (a : App) : AppConfig :=
  mkAppConfig (load a <$> servers a) (nextID a).

(** [GetServers]: the pointers of the map, in the order of the iteration
    (which Go leaves unspecified). *)
Definition GetServers (a : App) : list ptr * App :=
  ((map_to_list (servers a)).*2, a).

Definition CreateServer (name port directory : string) (a : App) : string * App :=
  let id := Itoa (nextID a) in
  let server := mkServer id name port directory false "" "" in
  (id, mkApp (heap a ++ [server]) (<[id := length (heap a)]> (servers a))
             (wrap_int (nextID a + 1)) (processes a)).

Definition StopServer (os : OS) (id : string) (a : App) : bool * App :=
  match servers a !! id with
  | None => (false, a)
  | Some server =>
      if negb (Running (load a server)) then (false, a)
      else
        match processes a !! id with
        | None => (true, store (set_Running false) server a)
        | Some cmd =>
            if Kill os cmd then
              (true, store (set_Running false) server
                       (mkApp (heap a) (servers a) (nextID a) (delete id (processes a))))
            else (false, a)
        end
  end.

Definition UpdateServer (os : OS) (id name port directory : string) (a : App)
  : bool * App :=
  match servers a !! id with
  | None => (false, a)
  | Some server =>
      let a1 := if Running (load a server) then (StopServer os id a).2 else a in
      (true, store (set_config name port directory) server a1)
  end.

Definition DeleteServer (os : OS) (id : string) (a : App) : bool * App :=
  match servers a !! id with
  | None => (false, a)
  | Some server =>
      let a1 := if Running (load a server) then (StopServer os id a).2 else a in
      (true, mkApp (heap a1) (delete id (servers a1)) (nextID a1) (processes a1))
  end.

(** The command line [StartServer] builds. *)
Definition start_command (os : OS) (server : Server) : Cmd :=
  let listenAddr :=
    if String.eqb (IPv6Address server) "" then "0.0.0.0"
    else "[" +:+ IPv6Address server +:+ "]" in
  let command :=
    "frankenphp php-server --listen " +:+ listenAddr +:+ ":" +:+ Port server
      +:+ " -r " +:+ Directory server in
  let fullCommand :=
    "sudo -u " +:+ Username os +:+ " /bin/bash -c '" +:+ command +:+ "'" in
  mkCmd "/bin/bash" ["/bin/bash"; "-c"; fullCommand] (Getwd os).

Definition StartServer (os : OS) (id : string) (a : App) : bool * App :=
  match servers a !! id with
  | None => (false, a)
  | Some server =>
      if Running (load a server) then (false, a)
      else
        let cmd := start_command os (load a server) in
        if Start os cmd then
          (true, store (set_Running true) server
                   (mkApp (heap a) (servers a) (nextID a) (<[id := cmd]> (processes a))))
        else (false, a)
  end.

(** The goroutine [StartServer] leaves behind, at the moment [cmd.Wait]
    returns: it holds the [id] and the pointer of the call. *)
Definition watcher (id : string) (server : ptr) (a : App) : App :=
  store (set_Running false) server
    (mkApp (heap a) (servers a) (nextID a) (delete id (processes a))).

Definition GetServerStatus (id : string) (a : App) : (bool * bool) * App :=
  match servers a !! id with
  | None => ((false, false), a)
  | Some server => ((true, Running (load a server)), a)
  end.

(** The calls a client of the supervisor can make, and the watcher. *)
Inductive op :=
| Create (name port directory : string)
| Update (os : OS) (id name port directory : string)
| Delete (os : OS) (id : string)
| StartOp (os : OS) (id : string)
| Stop (os : OS) (id : string)
| Status (id : string)
| ListAll
| Watcher (id : string) (server : ptr).

Definition run (o : op) (a : App) : App :=
  match o with
  | Create name port directory => (CreateServer name port directory a).2
  | Update os id name port directory => (UpdateServer os id name port directory a).2
  | Delete os id => (DeleteServer os id a).2
  | StartOp os id => (StartServer os id a).2
  | Stop os id => (StopServer os id a).2
  | Status id => (GetServerStatus id a).2
  | ListAll => (GetServers a).2
  | Watcher id server => watcher id server a
  end.

(** The records the map holds, by content. *)
Definition records (a : App) : gmap string Server := load a <$> servers a.

(** Every pointer of the map is allocated. *)
Definition wf (a : App) : Prop :=
  ∀ id p, servers a !! id = Some p → p < length (heap a).

(** The numeric value of every identity of the map is below [nextID]. *)
Definition ids_below_next (a : App) : Prop :=
  ∀ id, is_Some (servers a !! id) → ∃ n, Atoi id = Some n ∧ (n < nextID a)%Z.







End Supervisor.

(** A call either returns or stops in a run-time panic (a [nil] pointer
  dereference). *)
Inductive outcome (A : Type) :=
| Return (a : A)
| Panic.
Arguments Return {A} a.
Arguments Panic {A}.

(** ** Network interface provisioner (the VLAN manager) *)

Module Provisioner.
Import strconv.

(** [type VLANInterface struct].  The manager never writes to a record
    once it is in [interfaces], so a [*VLANInterface] is modelled by the
    record it points to, and [nil] by [None]. *)
Record VLANInterface := mkVLANInterface {
  Name : string;
  VLANID : Z;
  IPv6Address : string;
  Port : string;
  Active : bool
}.

(** [type VLANManager struct]. *)
Record VLANManager := mkVLANManager {
  ipv6Prefix : string;
  interfaces : gmap string VLANInterface;
  portToVLAN : gmap string string
}.

Definition NewVLANManager (ipv6Prefix : string) : VLANManager :=
  mkVLANManager ipv6Prefix ∅ ∅.

(** A [net.Interface]: its name and its flags. *)
Record Interface := mkInterface {
  IfName : string;
  Flags : N
}.

Definition FlagUp : N := 1.
Definition FlagLoopback : N := 4.

(** What the operating system answers during one method call:
    [net.Interfaces()] and, for each command line, whether [cmd.Run()]
    succeeds. *)
Record OS := mkOS {
  Interfaces : option (list Interface);
  Run : list string → bool
}.

Inductive linux_error :=
| MainInterfaceError      (* failed to get main interface *)
| LinkAddError            (* failed to create VLAN interface *)
| LinkUpError             (* failed to bring up VLAN interface *)
| AddrAddError.           (* failed to add IPv6 address *)

Inductive error :=
| InvalidPort (port : string)       (* invalid port number *)
| CreateFailed (e : linux_error)    (* failed to create VLAN interface *)
| RemoveFailed.                     (* failed to remove VLAN interface *)

Definition is_main (iface : Interface) : bool :=
  negb (N.land (Flags iface) FlagUp =? 0)%N
  && (N.land (Flags iface) FlagLoopback =? 0)%N
  && negb (strings.HasPrefix (IfName iface) "lo")
  && negb (strings.HasPrefix (IfName iface) "docker")
  && negb (strings.HasPrefix (IfName iface) "veth")
  && negb (strings.HasPrefix (IfName iface) "br-").

Fixpoint first_main (l : list Interface) : string :=
  match l with
  | [] => "wlan0"
  | iface :: l' => if is_main iface then IfName iface else first_main l'
  end.

(** [getMainInterface]; [None] is the error of [net.Interfaces]. *)
Definition getMainInterface (os : OS) : option string :=
  first_main <$> Interfaces os.

Definition link_add (mainInterface : string) (vlan : VLANInterface) : list string :=
  ["sudo"; "ip"; "link"; "add"; "link"; mainInterface; "name"; Name vlan;
   "type"; "vlan"; "id"; Itoa (VLANID vlan)].

Definition link_up (vlan : VLANInterface) : list string :=
  ["sudo"; "ip"; "link"; "set"; "dev"; Name vlan; "up"].

Definition addr_add (vlan : VLANInterface) : list string :=
  ["sudo"; "ip"; "-6"; "addr"; "add"; IPv6Address vlan +:+ "/64"; "dev"; Name vlan].

Definition link_delete (vlan : VLANInterface) : list string :=
  ["sudo"; "ip"; "link"; "delete"; Name vlan].

Definition set_Active (b : bool) (v : VLANInterface) : VLANInterface :=
  mkVLANInterface (Name v) (VLANID v) (IPv6Address v) (Port v) b.

(** [createLinuxVLANInterface]: the record after the call and the error. *)
Definition createLinuxVLANInterface (os : OS) (vlan : VLANInterface)
  : VLANInterface * option linux_error :=
  match getMainInterface os with
  | None => (vlan, Some MainInterfaceError)
  | Some mainInterface =>
      if negb (Run os (link_add mainInterface vlan)) then (vlan, Some LinkAddError)
      else if negb (Run os (link_up vlan)) then (vlan, Some LinkUpError)
      else if negb (Run os (addr_add vlan)) then (vlan, Some AddrAddError)
      else (set_Active true vlan, None)
  end.

(** The record [CreateVLANInterface] builds for a port that parses. *)
Definition derive (ipv6Prefix port : string) (portNum : Z) : VLANInterface :=
  let vlanID := portNum in
  let interfaceName := "vlan" +:+ Itoa vlanID in
  let ipv6Addr := strings.Replace1 ipv6Prefix "/64" "" +:+ "::" +:+ port in
  mkVLANInterface interfaceName vlanID ipv6Addr port false.

Definition CreateVLANInterface (os : OS) (port : string) (vm : VLANManager)
  : (option VLANInterface * option error) * VLANManager :=
  match portToVLAN vm !! port with
  | Some existingVLAN => ((interfaces vm !! existingVLAN, None), vm)
  | None =>
      match Atoi port with
      | None => ((None, Some (InvalidPort port)), vm)
      | Some portNum =>
          let '(vlanInterface, err) :=
            createLinuxVLANInterface os (derive (ipv6Prefix vm) port portNum) in
          match err with
          | Some e => ((None, Some (CreateFailed e)), vm)
          | None =>
              ((Some vlanInterface, None),
               mkVLANManager (ipv6Prefix vm)
                 (<[Name vlanInterface := vlanInterface]> (interfaces vm))
                 (<[port := Name vlanInterface]> (portToVLAN vm)))
          end
      end
  end.

Definition RemoveVLANInterface (os : OS) (port : string) (vm : VLANManager)
  : outcome (option error) * VLANManager :=
  match portToVLAN vm !! port with
  | None => (Return None, vm)
  | Some vlanName =>
      match interfaces vm !! vlanName with
      | None => (Panic, vm)
      | Some vlan =>
          if negb (Run os (link_delete vlan)) then (Return (Some RemoveFailed), vm)
          else
            (Return None,
             mkVLANManager (ipv6Prefix vm) (delete vlanName (interfaces vm))
               (delete port (portToVLAN vm)))
      end
  end.

Definition GetVLANForPort (port : string) (vm : VLANManager) : option VLANInterface :=
  match portToVLAN vm !! port with
  | Some vlanName => interfaces vm !! vlanName
  | None => None
  end.

(** [handleGetInterfaces]: the records of the map, in the order of the
    iteration. *)
Definition handleGetInterfaces (vm : VLANManager) : list VLANInterface :=
  (map_to_list (interfaces vm)).*2.

(** The object [handleGetStatus] encodes. *)
Record Status := mkStatus {
  ipv6_prefix : string;
  active_vlans : nat;
  port_mappings : gmap string string
}.

Definition handleGetStatus (vm : VLANManager) : Status :=
  mkStatus (ipv6Prefix vm) (size (interfaces vm)) (portToVLAN vm).

(** Every identity of the map is the one derived from its own port, marked
    active, stored under its own name, and the entry of its port leads back
    to it. *)
Definition bookkeeping_ok (vm : VLANManager) : Prop :=
  ∀ name v, interfaces vm !! name = Some v →
    Atoi (Port v) = Some (VLANID v)
    ∧ v = set_Active true (derive (ipv6Prefix vm) (Port v) (VLANID v))
    ∧ Name v = name
    ∧ portToVLAN vm !! Port v = Some name.

End Provisioner.

(** ** The create handler ([handlers.go]) *)

Module Handlers.
Import strconv.

(** The decoded request body [serverData]. *)
Record CreateRequest := mkCreateRequest {
  Name : string;
  Port : string;
  Directory : string
}.

Inductive body :=
| DecodeErrorText                       (* err.Error() of the JSON decoder *)
| ErrorText (msg : string)
| VLANErrorText (e : Provisioner.error) (* "Failed to create VLAN interface: " + err.Error() *)
| CreatedJSON (id vlan_interface ipv6_address : string).

Record Response := mkResponse {
  Status : Z;
  Body : body
}.

Definition StatusOK : Z := 200.
Definition StatusBadRequest : Z := 400.
Definition StatusInternalServerError : Z := 500.

(** [handleCreateServerWithVLAN]; [r] is the result of decoding the body,
    [None] when the decoder fails. *)
Definition handleCreateServerWithVLAN (os : Provisioner.OS) (r : option CreateRequest)
    (a : Supervisor.App) (vlanManager : Provisioner.VLANManager)
  : outcome Response * Supervisor.App * Provisioner.VLANManager :=
  match r with
  | None => (Return (mkResponse StatusBadRequest DecodeErrorText), a, vlanManager)
  | Some serverData =>
      if String.eqb (Name serverData) "" || String.eqb (Port serverData) ""
         || String.eqb (Directory serverData) ""
      then (Return (mkResponse StatusBadRequest (ErrorText "All fields are required")),
            a, vlanManager)
      else
        match Atoi (Port serverData) with
        | None =>
            (Return (mkResponse StatusBadRequest (ErrorText "Port must be a number")),
             a, vlanManager)
        | Some _ =>
            match Provisioner.CreateVLANInterface os (Port serverData) vlanManager with
            | ((_, Some err), vm1) =>
                (Return (mkResponse StatusInternalServerError (VLANErrorText err)), a, vm1)
            | ((vlanInterface, None), vm1) =>
                let '(id, a1) :=
                  Supervisor.CreateServer (Name serverData) (Port serverData)
                    (Directory serverData) a in
                match vlanInterface with
                | None => (Panic, a1, vm1)
                | Some v =>
                    let a2 :=
                      match Supervisor.servers a1 !! id with
                      | Some server =>
                          Supervisor.store
                            (Supervisor.set_vlan (Provisioner.Name v)
                               (Provisioner.IPv6Address v)) server a1
                      | None => a1
                      end in
                    (Return (mkResponse StatusOK
                               (CreatedJSON id (Provisioner.Name v)
                                  (Provisioner.IPv6Address v))),
                     a2, vm1)
                end
            end
        end
  end.

(** *** The other handlers *)

Definition StatusPartialContent : Z := 206.
Definition StatusNotFound : Z := 404.

Inductive payload :=
| NoBody                                    (* w.WriteHeader only *)
| Text (msg : string)                       (* http.Error with a fixed message *)
| DecodeText                                (* err.Error() of the JSON decoder *)
| ReleaseErrorText (e : Provisioner.error)  (* "Server deleted but failed to remove VLAN interface: " + err.Error() *)
| RunningJSON (running : bool)
| ServersJSON (servers : list Supervisor.Server).

Record Reply := mkReply {
  Code : Z;
  Payload : payload
}.

(** [handleGetServers]: the encoder reads each record through its pointer. *)
Definition handleGetServers (a : Supervisor.App) : Reply * Supervisor.App :=
  let '(servers, a1) := Supervisor.GetServers a in
  (mkReply StatusOK (ServersJSON (Supervisor.load a1 <$> servers)), a1).

(** [handleUpdateServer]; [id] is [mux.Vars(r)["id"]]. *)
Definition handleUpdateServer (os : Supervisor.OS) (id : string)
    (r : option CreateRequest) (a : Supervisor.App) : Reply * Supervisor.App :=
  match r with
  | None => (mkReply StatusBadRequest DecodeText, a)
  | Some serverData =>
      if String.eqb (Name serverData) "" || String.eqb (Port serverData) ""
         || String.eqb (Directory serverData) ""
      then (mkReply StatusBadRequest (Text "All fields are required"), a)
      else
        match Atoi (Port serverData) with
        | None => (mkReply StatusBadRequest (Text "Port must be a number"), a)
        | Some _ =>
            let '(success, a1) :=
              Supervisor.UpdateServer os id (Name serverData) (Port serverData)
                (Directory serverData) a in
            if negb success then (mkReply StatusNotFound (Text "Server not found"), a1)
            else (mkReply StatusOK NoBody, a1)
        end
  end.

(** [handleDeleteServerWithVLAN]. *)
Definition handleDeleteServerWithVLAN (os : Supervisor.OS) (net : Provisioner.OS)
    (id : string) (a : Supervisor.App) (vlanManager : Provisioner.VLANManager)
  : outcome Reply * Supervisor.App * Provisioner.VLANManager :=
  let port :=
    match Supervisor.servers a !! id with
    | Some server => Supervisor.Port (Supervisor.load a server)
    | None => ""
    end in
  let '(success, a1) := Supervisor.DeleteServer os id a in
  if negb success then
    (Return (mkReply StatusNotFound (Text "Server not found")), a1, vlanManager)
  else if negb (String.eqb port "") then
    match Provisioner.RemoveVLANInterface net port vlanManager with
    | (Panic, vm1) => (Panic, a1, vm1)
    | (Return (Some err), vm1) =>
        (Return (mkReply StatusPartialContent (ReleaseErrorText err)), a1, vm1)
    | (Return None, vm1) => (Return (mkReply StatusOK NoBody), a1, vm1)
    end
  else (Return (mkReply StatusOK NoBody), a1, vlanManager).

Definition handleStartServerWithVLAN (os : Supervisor.OS) (id : string)
    (a : Supervisor.App) : Reply * Supervisor.App :=
  let '(success, a1) := Supervisor.StartServer os id a in
  if negb success then
    (mkReply StatusBadRequest
       (Text "Failed to start server or server is already running"), a1)
  else (mkReply StatusOK NoBody, a1).

Definition handleStopServerWithVLAN (os : Supervisor.OS) (id : string)
    (a : Supervisor.App) : Reply * Supervisor.App :=
  let '(success, a1) := Supervisor.StopServer os id a in
  if negb success then
    (mkReply StatusBadRequest
       (Text "Failed to stop server or server is already stopped"), a1)
  else (mkReply StatusOK NoBody, a1).

Definition handleServerStatus (id : string) (a : Supervisor.App)
  : Reply * Supervisor.App :=
  let '((exists_, running), a1) := Supervisor.GetServerStatus id a in
  if negb exists_ then (mkReply StatusNotFound (Text "Server not found"), a1)
  else (mkReply StatusOK (RunningJSON running), a1).

End Handlers.

(** ** Authentication ([auth.go]) *)

Module Auth.

(** A [time.Time] is the instant it denotes, in nanoseconds; [t.After(u)]
    is [u < t] and [t.Add(d)] is [t + d]. *)
Abbreviation instant := Z.

(** [24 * time.Hour]. *)
Definition session_length : Z := 24 * 3600 * 1000000000.

(** [type Session struct].  A session is never written to once it is in
    the map, so a [*Session] is modelled by the record it points to. *)
Record Session := mkSession {
  Token : string;
  CreatedAt : instant;
  ExpiresAt : instant
}.

(** [type AuthMiddleware struct]. *)
Record AuthMiddleware := mkAuthMiddleware {
  password : string;
  sessions : gmap string Session
}.

Definition NewAuthMiddleware (password : string) : AuthMiddleware :=
  mkAuthMiddleware password ∅.

(** What the handlers read of an [*http.Request]: [r.URL.Path],
    [r.Header.Get("Authorization")] and [r.URL.Query().Get("token")], the
    last two empty when absent. *)
Record Request := mkRequest {
  Path : string;
  Authorization : string;
  QueryToken : string
}.

Inductive body :=
| NoBody
| ErrorText (msg : string)
| TokenJSON (token : string) (expires_at : instant).

Record Response := mkResponse {
  Status : Z;
  Body : body
}.

Definition StatusOK : Z := 200.
Definition StatusBadRequest : Z := 400.
Definition StatusUnauthorized : Z := 401.
Definition StatusInternalServerError : Z := 500.

(** What the middleware does with a request: hand it to the next handler
    or answer it. *)
Inductive verdict :=
| Next
| Answer (resp : Response).

Definition extractToken (r : Request) : string :=
  let authHeader := Authorization r in
  if negb (String.eqb authHeader "") then
    match strings.split_space authHeader with
    | Some (scheme, token) =>
        if String.eqb scheme "Bearer" then token else QueryToken r
    | None => QueryToken r
    end
  else QueryToken r.

(** [isValidToken]; [now] is the reading of [time.Now()]. *)
Definition isValidToken (token : string) (now : instant) (am : AuthMiddleware)
  : bool * AuthMiddleware :=
  match sessions am !! token with
  | None => (false, am)
  | Some session =>
      if (ExpiresAt session <? now)%Z then
        (false, mkAuthMiddleware (password am) (delete token (sessions am)))
      else (true, am)
  end.

(** [Middleware]. *)
Definition Middleware (r : Request) (now : instant) (am : AuthMiddleware)
  : verdict * AuthMiddleware :=
  if strings.HasSuffix (Path r) "/auth/login" then (Next, am)
  else
    let token := extractToken r in
    if String.eqb token "" then
      (Answer (mkResponse StatusUnauthorized (ErrorText "Authentication required")), am)
    else
      let '(valid, am1) := isValidToken token now am in
      if negb valid then
        (Answer (mkResponse StatusUnauthorized (ErrorText "Authentication required")), am1)
      else (Next, am1).

(** [HandleLogin]; [loginData] is the decoded password, [None] when the
    decoder fails; [generated] is the result of [generateToken], [None] when
    [rand.Read] fails; [created] and [now] are the two readings of
    [time.Now()]. *)
Definition HandleLogin (loginData : option string) (generated : option string)
    (created now : instant) (am : AuthMiddleware) : Response * AuthMiddleware :=
  match loginData with
  | None => (mkResponse StatusBadRequest (ErrorText "Invalid request body"), am)
  | Some given =>
      if negb (String.eqb given (password am)) then
        (mkResponse StatusUnauthorized (ErrorText "Invalid password"), am)
      else
        match generated with
        | None =>
            (mkResponse StatusInternalServerError
               (ErrorText "Failed to generate session"), am)
        | Some token =>
            let session := mkSession token created (now + session_length)%Z in
            (mkResponse StatusOK (TokenJSON token (ExpiresAt session)),
             mkAuthMiddleware (password am) (<[token := session]> (sessions am)))
        end
  end.

(** [HandleLogout]. *)
Definition HandleLogout (r : Request) (am : AuthMiddleware) : Response * AuthMiddleware :=
  let token := extractToken r in
  if String.eqb token "" then
    (mkResponse StatusBadRequest (ErrorText "No token provided"), am)
  else
    (mkResponse StatusOK NoBody,
     mkAuthMiddleware (password am) (delete token (sessions am))).

(** [cleanupExpiredSessions], the goroutine of [HandleLogin]. *)
Definition cleanupExpiredSessions (now : instant) (am : AuthMiddleware) : AuthMiddleware :=
  mkAuthMiddleware (password am)
    (filter (λ ts, ¬ (ExpiresAt ts.2 < now)%Z) (sessions am)).

End Auth.

(** ** The VLAN pool of the first [main.go] *)

Module Pool.
Import strconv.

(** [type VLANManager struct] of that file. *)
Record VLANManager := mkVLANManager {
  subnet : string;
  usedVLANs : gmap string bool
}.

Definition NewVLANManager (subnet : string) : VLANManager := mkVLANManager subnet ∅.

(** [vm.usedVLANs[vlan]]: [false] for a key the map does not hold. *)
Definition used (vm : VLANManager) (vlan : string) : bool :=
  default false (usedVLANs vm !! vlan).

(** The loop [for i := ...; i < 200; i++] with [count] turns left. *)
Fixpoint scan (count : nat) (i : Z) (vm : VLANManager) : option string :=
  match count with
  | O => None
  | S count' =>
      let vlan := "vlan" +:+ Itoa i in
      if negb (used vm vlan) then Some vlan else scan count' (i + 1) vm
  end.

(** [GetFreeVLAN]; [None] is the error "no free VLANs available". *)
Definition GetFreeVLAN (vm : VLANManager) : option string * VLANManager :=
  match scan 100 100 vm with
  | Some vlan => (Some vlan, mkVLANManager (subnet vm) (<[vlan := true]> (usedVLANs vm)))
  | None => (None, vm)
  end.

Definition ReleaseVLAN (vlan : string) (vm : VLANManager) : VLANManager :=
  mkVLANManager (subnet vm) (delete vlan (usedVLANs vm)).

End Pool.

(** ** Sample states and environments *)

Module Scenario.
Import Supervisor.

(** An operating system on which every call succeeds, and one on which
    every call fails. *)
Definition os_ok : OS := mkOS "www" "/opt/php-server-manager" (λ _, true) (λ _, true).
Definition os_down : OS := mkOS "www" "/opt/php-server-manager" (λ _, false) (λ _, false).

(** The end-to-end scenario of the specification, step by step. *)
Definition created : App := (CreateServer "web1" "9090" "/srv/app" NewApp).2.
Definition started : App := (StartServer os_ok "1" created).2.

(** A record marked running whose process handle is gone. *)
Definition orphaned : App :=
  mkApp (heap started) (servers started) (nextID started) ∅.

(** A snapshot with one record saved as running. *)
Definition saved_running : AppConfig := saveConfig started.

(** A snapshot whose [nextID] is the largest [int]. *)
Definition saved_last_id : AppConfig := mkAppConfig ∅ strconv.max_int.

Definition lo : Provisioner.Interface := Provisioner.mkInterface "lo" 5.
Definition eth0 : Provisioner.Interface := Provisioner.mkInterface "eth0" 19.

Definition net_ok : Provisioner.OS := Provisioner.mkOS (Some [lo; eth0]) (λ _, true).
Definition net_down : Provisioner.OS := Provisioner.mkOS (Some [lo; eth0]) (λ _, false).

(** The manager of [main], with the prefix of the README. *)
Definition vm0 : Provisioner.VLANManager :=
  Provisioner.NewVLANManager "2a0e:b107:384:ee25::/64".
Definition vm8080 : Provisioner.VLANManager :=
  (Provisioner.CreateVLANInterface net_ok "8080" vm0).2.

(** Two servers created through the handler on the same port. *)
Definition first_8080 :=
  Handlers.handleCreateServerWithVLAN net_ok
    (Some (Handlers.mkCreateRequest "web1" "8080" "/srv/app")) NewApp vm0.
Definition second_8080 :=
  Handlers.handleCreateServerWithVLAN net_down
    (Some (Handlers.mkCreateRequest "web2" "8080" "/srv/other")) first_8080.1.2 first_8080.2.
Definition twins : App := second_8080.1.2.

(** The middleware of [main] after one login at instant 0. *)
Definition am0 : Auth.AuthMiddleware := Auth.NewAuthMiddleware "admin123".
Definition logged_in : Auth.AuthMiddleware :=
  (Auth.HandleLogin (Some "admin123") (Some "c2Vzc2lvbg==") 0 0 am0).2.
Definition api_request : Auth.Request :=
  Auth.mkRequest "/api/servers" "Bearer c2Vzc2lvbg==" "".

End Scenario.

(** * Properties *)

(** ** [strconv]: [Atoi] reads back what [Itoa] prints *)

Module StrconvFacts.
Import strconv.

Example Itoa_8080 : Itoa 8080 = "8080".
Proof. reflexivity. Qed.

Example Itoa_negative : Itoa (-15) = "-15".
Proof. reflexivity. Qed.

Example Itoa_zero : Itoa 0 = "0".
Proof. reflexivity. Qed.

Example Itoa_max_int : Itoa max_int = "9223372036854775807".
Proof. vm_compute. reflexivity. Qed.

Example Atoi_signs :
  Atoi "+80" = Some 80%Z ∧ Atoi "080" = Some 80%Z ∧ Atoi "-1" = Some (-1)%Z.
Proof. repeat split. Qed.

Example Atoi_errors :
  Atoi "" = None ∧ Atoi "-" = None ∧ Atoi "80a" = None ∧ Atoi "8 0" = None
  ∧ Atoi "9223372036854775808" = None.
Proof. vm_compute. repeat split. Qed.

Example Atoi_min_int : Atoi "-9223372036854775808" = Some min_int.
Proof. vm_compute. reflexivity. Qed.

Example wrap_int_max : wrap_int (max_int + 1) = min_int.
Proof. reflexivity. Qed.

Example Replace1_prefix :
  strings.Replace1 "2a0e:b107:384:ee25::/64" "/64" "" = "2a0e:b107:384:ee25::".
Proof. reflexivity. Qed.

Example Replace1_leftmost : strings.Replace1 "/64a/64" "/64" "" = "a/64".
Proof. reflexivity. Qed.

Example Replace1_absent : strings.Replace1 "fd00::/48" "/64" "" = "fd00::/48".
Proof. reflexivity. Qed.

Lemma digit_cases (d : N) :
  (d < 10)%N →
  d = 0%N ∨ d = 1%N ∨ d = 2%N ∨ d = 3%N ∨ d = 4%N ∨ d = 5%N ∨ d = 6%N
  ∨ d = 7%N ∨ d = 8%N ∨ d = 9%N.
Proof. lia. Qed.

Lemma digit_of_digit_char (d : N) :
  (d < 10)%N → digit_of (digit_char d) = Some (Z.of_N d).
Proof.
  intros Hd. destruct (digit_cases d Hd) as [->|[->|[->|[->|[->|[->|[->|[->|[->| ->]]]]]]]]];
    reflexivity.
Qed.

Lemma digit_char_not_sign (d : N) :
  (d < 10)%N →
  Ascii.eqb (digit_char d) "-" = false ∧ Ascii.eqb (digit_char d) "+" = false.
Proof.
  intros Hd. destruct (digit_cases d Hd) as [->|[->|[->|[->|[->|[->|[->|[->|[->| ->]]]]]]]]];
    split; reflexivity.
Qed.

Lemma size_nat_bound (u : N) : (u < 2 ^ N.of_nat (N.size_nat u))%N.
Proof.
  destruct u as [|p]; [reflexivity|]. simpl N.size_nat.
  induction p as [p IH|p IH|]; simpl Pos.size_nat.
  - rewrite Nat2N.inj_succ, N.pow_succ_r'. lia.
  - rewrite Nat2N.inj_succ, N.pow_succ_r'. lia.
  - reflexivity.
Qed.

Lemma parse_formatBits (fuel : nat) :
  ∀ (u : N) (acc : string),
    (u < 2 ^ N.of_nat fuel)%N →
    parse_digits 0 (formatBits fuel u acc) = parse_digits (Z.of_N u) acc.
Proof.
  induction fuel as [|fuel IH]; intros u acc Hu.
  - simpl in *. assert (u = 0%N) as -> by lia. reflexivity.
  - rewrite Nat2N.inj_succ, N.pow_succ_r' in Hu.
    assert (Hstep : parse_digits (Z.of_N (u / 10)) (String (digit_char (u mod 10)) acc)
                    = parse_digits (Z.of_N u) acc).
    { simpl. rewrite digit_of_digit_char by (apply N.mod_lt; lia).
      f_equal. pose proof (N.div_mod u 10). lia. }
    simpl formatBits. destruct (N.eqb_spec (u / 10) 0) as [Hq|Hq].
    + rewrite <- Hstep, Hq. reflexivity.
    + rewrite IH; [exact Hstep|].
      apply N.Div0.div_lt_upper_bound. lia.
Qed.

Lemma formatBits_head (fuel : nat) :
  ∀ (u : N) (acc : string),
    ∃ d rest, (d < 10)%N ∧ formatBits (S fuel) u acc = String (digit_char d) rest.
Proof.
  induction fuel as [|fuel IH]; intros u acc.
  - exists (u mod 10)%N, acc. split; [apply N.mod_lt; lia|].
    simpl. destruct (u / 10 =? 0)%N; reflexivity.
  - change (formatBits (S (S fuel)) u acc)
      with (let acc' := String (digit_char (u mod 10)) acc in
            if (u / 10 =? 0)%N then acc' else formatBits (S fuel) (u / 10) acc').
    cbv zeta. destruct (u / 10 =? 0)%N.
    + exists (u mod 10)%N, acc. split; [apply N.mod_lt; lia|reflexivity].
    + apply IH.
Qed.

Lemma parse_format_uint (u : N) : parse_digits 0 (format_uint u) = Some (Z.of_N u).
Proof.
  unfold format_uint. rewrite parse_formatBits; [reflexivity|].
  rewrite Nat2N.inj_succ, N.pow_succ_r'. pose proof (size_nat_bound u). lia.
Qed.

(** [Atoi (Itoa i)] is [i], for every [i] of the type [int]. *)
Lemma Atoi_Itoa (i : Z) :
  (min_int ≤ i ≤ max_int)%Z → Atoi (Itoa i) = Some i.
Proof.
  intros Hi. unfold Itoa.
  pose proof (parse_format_uint (Z.abs_N i)) as Hparse.
  destruct (formatBits_head (N.size_nat (Z.abs_N i)) (Z.abs_N i) "")
    as (d & rest & Hd & Hhead).
  fold (format_uint (Z.abs_N i)) in Hhead.
  destruct (digit_char_not_sign d Hd) as [Hminus Hplus].
  assert (Hrange : ((min_int <=? i) && (i <=? max_int))%Z = true).
  { apply andb_true_iff. split; apply Z.leb_le; lia. }
  destruct (Z.ltb_spec i 0) as [Hneg|Hpos].
  - unfold Atoi. rewrite Hhead in *. cbn [Ascii.eqb Bool.eqb orb].
    rewrite Hparse. rewrite N2Z.inj_abs_N.
    replace (- Z.abs i)%Z with i by lia. rewrite Hrange. reflexivity.
  - rewrite Hhead in *. unfold Atoi. rewrite Hminus, Hplus. simpl orb. cbv iota.
    rewrite Hparse. rewrite N2Z.inj_abs_N.
    replace (Z.abs i) with i by lia. rewrite Hrange. reflexivity.
Qed.

Lemma Itoa_inj (i j : Z) :
  (min_int ≤ i ≤ max_int)%Z → (min_int ≤ j ≤ max_int)%Z → Itoa i = Itoa j → i = j.
Proof.
  intros Hi Hj Heq. pose proof (Atoi_Itoa i Hi) as Hi'.
  rewrite Heq, (Atoi_Itoa j Hj) in Hi'. congruence.
Qed.

Lemma wrap_int_range (z : Z) : (min_int ≤ wrap_int z ≤ max_int)%Z.
Proof.
  unfold wrap_int, min_int, max_int.
  pose proof (Z.mod_pos_bound (z + 2 ^ 63) (2 ^ 64)). lia.
Qed.

Lemma wrap_int_small (z : Z) : (min_int ≤ z ≤ max_int)%Z → wrap_int z = z.
Proof.
  unfold wrap_int, min_int, max_int. intros Hz.
  rewrite Z.mod_small by lia. lia.
Qed.

End StrconvFacts.

(** ** The supervisor *)

Module SupervisorFacts.
Import strconv Supervisor StrconvFacts.

Example scenario_created :
  heap Scenario.created = [mkServer "1" "web1" "9090" "/srv/app" false "" ""]
  ∧ servers Scenario.created !! "1" = Some 0%nat
  ∧ nextID Scenario.created = 2%Z.
Proof. vm_compute. auto. Qed.

Example scenario_started :
  Running (load Scenario.started 0) = true
  ∧ processes Scenario.started !! "1"
    = Some (mkCmd "/bin/bash"
              ["/bin/bash"; "-c";
               "sudo -u www /bin/bash -c 'frankenphp php-server --listen 0.0.0.0:9090 -r /srv/app'"]
              "/opt/php-server-manager").
Proof. vm_compute. auto. Qed.

(** *** Reading and writing through a pointer *)

Lemma load_store_eq f p a :
  p < length (heap a) → load (store f p a) p = f (load a p).
Proof. intros Hp. unfold load, store. simpl. by apply list_lookup_total_alter_eq. Qed.

Lemma load_store_ne f p q a : p ≠ q → load (store f p a) q = load a q.
Proof. intros Hne. unfold load, store. simpl. by apply list_lookup_total_alter_ne. Qed.


(** *** Start and stop *)

(** C5: [StartServer] on an unknown identity, or on a server that is
    already running, returns [false] and leaves the whole state (store,
    server map, process table and [nextID]) as it was. *)
Theorem StartServer_rejects (os : OS) (id : string) (a : App) :
  (servers a !! id = None
   ∨ ∃ p, servers a !! id = Some p ∧ Running (load a p) = true) →
  StartServer os id a = (false, a).
Proof.
  intros [Hnone|(p & Hp & Hrun)]; unfold StartServer.
  - by rewrite Hnone.
  - by rewrite Hp, Hrun.
Qed.

Lemma StartServer_rejects_witness :
  (∃ p, servers Scenario.started !! "1" = Some p
        ∧ Running (load Scenario.started p) = true)
  ∧ StartServer Scenario.os_ok "1" Scenario.started = (false, Scenario.started)
  ∧ StartServer Scenario.os_ok "7" Scenario.started = (false, Scenario.started).
Proof.
  split; [exists 0; split; reflexivity|].
  split.
  - apply (StartServer_rejects Scenario.os_ok "1" Scenario.started).
    right. exists 0. split; reflexivity.
  - apply (StartServer_rejects Scenario.os_ok "7" Scenario.started).
    left. reflexivity.
Defined.

(** C6: [StopServer] on a running server whose process handle is missing
    returns [true] and clears the running flag of that record, touching
    nothing else; on an unknown identity or a stopped server it returns
    [false] and leaves the state as it was. *)
Theorem StopServer_missing_handle (os : OS) (id : string) (a : App) :
  (∀ p, servers a !! id = Some p → p < length (heap a) →
        Running (load a p) = true → processes a !! id = None →
        StopServer os id a = (true, store (set_Running false) p a)
        ∧ Running (load (StopServer os id a).2 p) = false
        ∧ GetServerStatus id (StopServer os id a).2
          = ((true, false), (StopServer os id a).2))
  ∧ ((servers a !! id = None
      ∨ ∃ p, servers a !! id = Some p ∧ Running (load a p) = false) →
     StopServer os id a = (false, a)).
Proof.
  split.
  - intros p Hp Hlen Hrun Hproc.
    assert (Hstop : StopServer os id a = (true, store (set_Running false) p a)).
    { unfold StopServer. by rewrite Hp, Hrun, Hproc. }
    rewrite Hstop. simpl.
    assert (Hflag : Running (load (store (set_Running false) p a) p) = false).
    { by rewrite load_store_eq. }
    split; [done|]. split; [done|].
    unfold GetServerStatus.
    change (servers (store (set_Running false) p a)) with (servers a).
    by rewrite Hp, Hflag.
  - intros [Hnone|(p & Hp & Hrun)]; unfold StopServer.
    + by rewrite Hnone.
    + by rewrite Hp, Hrun.
Qed.

Lemma StopServer_missing_handle_witness :
  (servers Scenario.orphaned !! "1" = Some 0
   ∧ Running (load Scenario.orphaned 0) = true
   ∧ processes Scenario.orphaned !! "1" = None)
  ∧ (StopServer Scenario.os_down "1" Scenario.orphaned).1 = true
  ∧ Running (load (StopServer Scenario.os_down "1" Scenario.orphaned).2 0) = false
  ∧ StopServer Scenario.os_ok "1" Scenario.created = (false, Scenario.created)
  ∧ StopServer Scenario.os_ok "7" Scenario.created = (false, Scenario.created).
Proof.
  split; [repeat split; reflexivity|].
  destruct (StopServer_missing_handle Scenario.os_down "1" Scenario.orphaned) as [Hstop _].
  destruct (Hstop 0) as (Heq & Hflag & _);
    [reflexivity | vm_compute; lia | reflexivity | reflexivity |].
  split; [by rewrite Heq|]. split; [exact Hflag|].
  split.
  - apply (StopServer_missing_handle Scenario.os_ok "1" Scenario.created).
    right. exists 0. split; reflexivity.
  - apply (StopServer_missing_handle Scenario.os_ok "7" Scenario.created).
    left. reflexivity.
Defined.

Lemma GetServerStatus_records (id : string) (a : App) (s : Server) :
  records a !! id = Some s → GetServerStatus id a = ((true, Running s), a).
Proof.
  unfold GetServerStatus, records. rewrite lookup_fmap.
  destruct (servers a !! id) as [p|]; simpl; [|done]. by intros [= <-].
Qed.

(** C10: [GetServerStatus] changes nothing; it answers [(false, false)]
    for an identity the map does not hold and [(true, r)], with [r] the
    running flag of the record, for one it holds. *)
Theorem GetServerStatus_pure (id : string) (a : App) :
  (GetServerStatus id a).2 = a
  ∧ (servers a !! id = None → (GetServerStatus id a).1 = (false, false))
  ∧ (∀ s, records a !! id = Some s → (GetServerStatus id a).1 = (true, Running s)).
Proof.
  split; [|split].
  - unfold GetServerStatus. by destruct (servers a !! id).
  - intros Hnone. unfold GetServerStatus. by rewrite Hnone.
  - intros s Hs. by rewrite (GetServerStatus_records id a s Hs).
Qed.

Lemma GetServerStatus_pure_witness :
  servers Scenario.started !! "7" = None
  ∧ (GetServerStatus "7" Scenario.started).1 = (false, false)
  ∧ (GetServerStatus "1" Scenario.started).1 = (true, true)
  ∧ (GetServerStatus "1" Scenario.created).1 = (true, false).
Proof.
  split; [reflexivity|]. split.
  - apply (GetServerStatus_pure "7" Scenario.started). reflexivity.
  - split.
    + destruct (GetServerStatus_pure "1" Scenario.started) as (_ & _ & Hsome).
      apply (Hsome (mkServer "1" "web1" "9090" "/srv/app" true "" "")).
      vm_compute. reflexivity.
    + destruct (GetServerStatus_pure "1" Scenario.created) as (_ & _ & Hsome).
      apply (Hsome (mkServer "1" "web1" "9090" "/srv/app" false "" "")).
      vm_compute. reflexivity.
Defined.

(** *** What a mutation changes in the store *)

Lemma StopServer_heap_length os id a :
  length (heap (StopServer os id a).2) = length (heap a).
Proof.
  unfold StopServer. destruct (servers a !! id) as [q|]; [|done].
  destruct (negb _); [done|].
  destruct (processes a !! id) as [cmd|]; [destruct (Kill os cmd)|];
    simpl; by rewrite ?length_alter.
Qed.

Lemma StopServer_frame os id a p :
  servers a !! id ≠ Some p → load (StopServer os id a).2 p = load a p.
Proof.
  intros Hne. unfold StopServer. destruct (servers a !! id) as [q|]; [|done].
  assert (q ≠ p) by congruence.
  destruct (negb _); [done|].
  destruct (processes a !! id) as [cmd|]; [destruct (Kill os cmd)|];
    simpl; by rewrite ?load_store_ne.
Qed.

Lemma StartServer_frame os id a p :
  servers a !! id ≠ Some p → load (StartServer os id a).2 p = load a p.
Proof.
  intros Hne. unfold StartServer. destruct (servers a !! id) as [q|]; [|done].
  assert (q ≠ p) by congruence.
  destruct (Running _); [done|].
  destruct (Start os _); simpl; by rewrite ?load_store_ne.
Qed.

Lemma UpdateServer_frame os id name port directory a p :
  servers a !! id ≠ Some p →
  load (UpdateServer os id name port directory a).2 p = load a p.
Proof.
  intros Hne. unfold UpdateServer.
  destruct (servers a !! id) as [q|] eqn:Hq; [|done].
  assert (q ≠ p) by congruence. simpl. rewrite load_store_ne by done.
  destruct (Running _); [|done]. apply StopServer_frame. by rewrite Hq.
Qed.

Lemma DeleteServer_frame os id a p :
  servers a !! id ≠ Some p → load (DeleteServer os id a).2 p = load a p.
Proof.
  intros Hne. unfold DeleteServer.
  destruct (servers a !! id) as [q|] eqn:Hq; [|done]. simpl.
  destruct (Running _); [|done].
  etransitivity; [|apply (StopServer_frame os id a p); by rewrite Hq]. done.
Qed.

Lemma UpdateServer_target os id name port directory a p :
  servers a !! id = Some p → p < length (heap a) →
  (UpdateServer os id name port directory a).1 = true
  ∧ Name (load (UpdateServer os id name port directory a).2 p) = name
  ∧ Port (load (UpdateServer os id name port directory a).2 p) = port
  ∧ Directory (load (UpdateServer os id name port directory a).2 p) = directory.
Proof.
  intros Hp Hlen. unfold UpdateServer. rewrite Hp. simpl.
  rewrite load_store_eq; [done|].
  destruct (Running _); [|done]. by rewrite StopServer_heap_length.
Qed.

Lemma elem_of_GetServers a p :
  p ∈ (GetServers a).1 ↔ ∃ id, servers a !! id = Some p.
Proof.
  unfold GetServers. simpl. rewrite list_elem_of_fmap. split.
  - intros ([id q] & -> & Hin). exists id. by apply elem_of_map_to_list.
  - intros (id & Hid). exists (id, p). split; [done|]. by apply elem_of_map_to_list.
Qed.

(** C1, as the code has it: [GetServers] returns the pointers the map
    holds, not copies.  The call changes nothing, and every pointer it
    returns is the one stored for some identity.  A later [UpdateServer],
    [StartServer], [StopServer] or [DeleteServer] of a server leaves the
    records of all other servers, read through the pointers returned
    before, with the contents they had; the record of the server that
    [UpdateServer] changes is read with its new name, port and directory. *)
Theorem GetServers_references (a : App) (p : ptr) :
  p ∈ (GetServers a).1 →
  (GetServers a).2 = a
  ∧ (∃ id, servers a !! id = Some p)
  ∧ ∀ os id name port directory,
      (servers a !! id ≠ Some p →
         load (UpdateServer os id name port directory a).2 p = load a p
         ∧ load (StartServer os id a).2 p = load a p
         ∧ load (StopServer os id a).2 p = load a p
         ∧ load (DeleteServer os id a).2 p = load a p)
      ∧ (servers a !! id = Some p → p < length (heap a) →
         Name (load (UpdateServer os id name port directory a).2 p) = name
         ∧ Port (load (UpdateServer os id name port directory a).2 p) = port
         ∧ Directory (load (UpdateServer os id name port directory a).2 p) = directory).
Proof.
  intros Hin. split; [done|]. split; [by apply elem_of_GetServers|].
  intros os id name port directory. split.
  - intros Hne.
    auto using UpdateServer_frame, StartServer_frame, StopServer_frame, DeleteServer_frame.
  - intros Hp Hlen.
    by destruct (UpdateServer_target os id name port directory a p Hp Hlen) as (_ & ?).
Qed.

Lemma GetServers_references_witness :
  0 ∈ (GetServers Scenario.created).1
  ∧ load (StartServer Scenario.os_ok "7" Scenario.created).2 0 = load Scenario.created 0
  ∧ Name (load (UpdateServer Scenario.os_ok "1" "web2" "9091" "/srv/other"
                  Scenario.created).2 0) = "web2".
Proof.
  assert (Hin : 0 ∈ (GetServers Scenario.created).1) by (vm_compute; left).
  split; [exact Hin|].
  destruct (GetServers_references Scenario.created 0 Hin) as (_ & _ & Hmut).
  split.
  - destruct (Hmut Scenario.os_ok "7" "" "" "") as [Hother _].
    destruct Hother as (_ & Hstart & _); [vm_compute; discriminate|].
    exact Hstart.
  - destruct (Hmut Scenario.os_ok "1" "web2" "9091" "/srv/other") as [_ Htarget].
    destruct Htarget as (Hname & _); [reflexivity | vm_compute; lia|].
    exact Hname.
Defined.

(** C1, as the claim states it, fails: a record listed before an update is
    read with the new contents after it. *)
Lemma GetServers_no_snapshot :
  (GetServers Scenario.created).1 = [0]
  ∧ load Scenario.created 0 = mkServer "1" "web1" "9090" "/srv/app" false "" ""
  ∧ load (UpdateServer Scenario.os_ok "1" "web2" "9091" "/srv/other" Scenario.created).2 0
    = mkServer "1" "web2" "9091" "/srv/other" false "" ""
  ∧ load (UpdateServer Scenario.os_ok "1" "web2" "9091" "/srv/other" Scenario.created).2 0
    ≠ load Scenario.created 0.
Proof. vm_compute. repeat split; discriminate. Qed.

(** *** Loading a snapshot *)

Lemma set_Running_idemp b s : set_Running b (set_Running b s) = set_Running b s.
Proof. done. Qed.

(** What [json.Unmarshal] leaves: each entry of the snapshot is a new record
    of the store, and every pointer of the new map is allocated. *)
Lemma unmarshal_servers_spec (h : list Server) (m : gmap string Server) :
  (∀ id, (unmarshal_servers h m).2 !! id ≫= (λ p, (unmarshal_servers h m).1 !! p)
         = m !! id)
  ∧ (∀ id p, (unmarshal_servers h m).2 !! id = Some p →
             p < length (unmarshal_servers h m).1).
Proof.
  unfold unmarshal_servers.
  apply (map_fold_weak_ind
           (λ (r : list Server * gmap string nat) (m : gmap string Server),
              (∀ id, r.2 !! id ≫= (λ p, r.1 !! p) = m !! id)
              ∧ (∀ id p, r.2 !! id = Some p → p < length r.1))).
  - simpl. split; [|intros id p; by rewrite lookup_empty].
    intros id. by rewrite !lookup_empty.
  - intros i x m' r Hfresh [IHlook IHlen]. simpl. split.
    + intros id. destruct (decide (i = id)) as [->|Hne].
      * rewrite !lookup_insert_eq. simpl. by rewrite list_lookup_middle.
      * rewrite !lookup_insert_ne by done. rewrite <- IHlook.
        destruct (r.2 !! id) as [p|] eqn:Hp; [|done]. simpl.
        apply lookup_app_l. by eapply IHlen.
    + intros id p. rewrite length_app. simpl.
      destruct (decide (i = id)) as [->|Hne].
      * rewrite lookup_insert_eq. intros [= <-]. lia.
      * rewrite lookup_insert_ne by done. intros Hp. specialize (IHlen _ _ Hp). lia.
Qed.

(** What the loop over the map leaves: the record behind every pointer of
    the map has its flag cleared, every other record is as it was. *)
Lemma stop_all_spec (ps : gmap string nat) (h : list Server) (q : nat) :
  (stop_all ps h !! q = h !! q ∧ ∀ id, ps !! id ≠ Some q)
  ∨ (stop_all ps h !! q = set_Running false <$> h !! q ∧ ∃ id, ps !! id = Some q).
Proof.
  unfold stop_all.
  apply (map_fold_weak_ind
           (λ (h' : list Server) (m : gmap string nat),
              (h' !! q = h !! q ∧ ∀ id, m !! id ≠ Some q)
              ∨ (h' !! q = set_Running false <$> h !! q ∧ ∃ id, m !! id = Some q))).
  - left. split; [done|]. intros id. by rewrite lookup_empty.
  - intros i p m h' Hfresh IH. destruct (decide (p = q)) as [->|Hne].
    + right. split; [|exists i; by rewrite lookup_insert_eq].
      rewrite list_lookup_alter_eq.
      destruct IH as [[-> _]|[-> _]]; [done|].
      rewrite <- option_fmap_compose. by destruct (h !! q).
    + rewrite list_lookup_alter_ne by done.
      destruct IH as [[Hq Hno]|[Hq (id & Hid)]].
      * left. split; [done|]. intros id. destruct (decide (i = id)) as [->|].
        -- rewrite lookup_insert_eq. congruence.
        -- by rewrite lookup_insert_ne.
      * right. split; [done|]. exists id. rewrite lookup_insert_ne; [done|].
        intros ->. congruence.
Qed.

Lemma loadConfig_records (config : AppConfig) (a : App) :
  records (loadConfig (Decoded config) a) = set_Running false <$> Servers config.
Proof.
  unfold loadConfig.
  destruct (unmarshal_servers_spec (heap a) (Servers config)) as [Hlook Hlen].
  destruct (unmarshal_servers (heap a) (Servers config)) as [h ps]. simpl in *.
  apply map_eq. intros id. unfold records. rewrite !lookup_fmap. simpl.
  rewrite <- Hlook. destruct (ps !! id) as [p|] eqn:Hp; [|done]. simpl.
  unfold load. simpl.
  destruct (lookup_lt_is_Some_2 h p (Hlen _ _ Hp)) as [s Hs]. rewrite Hs. simpl.
  f_equal. apply list_lookup_total_correct.
  destruct (stop_all_spec ps h p) as [[_ Hno]|[Hq _]].
  - by destruct (Hno id).
  - by rewrite Hq, Hs.
Qed.

Lemma loadConfig_rest (config : AppConfig) (a : App) :
  nextID (loadConfig (Decoded config) a) = NextID config
  ∧ processes (loadConfig (Decoded config) a) = processes a.
Proof.
  unfold loadConfig. by destruct (unmarshal_servers (heap a) (Servers config)).
Qed.

(** C7: loading a decoded snapshot makes the server map hold exactly the
    records of the snapshot with the running flag cleared, takes [nextID]
    from the snapshot, and does not touch the process table; after
    [startup] the process table is empty and every record reports
    running = false. *)
Theorem loadConfig_restores (config : AppConfig) (a : App) :
  records (loadConfig (Decoded config) a) = set_Running false <$> Servers config
  ∧ nextID (loadConfig (Decoded config) a) = NextID config
  ∧ processes (loadConfig (Decoded config) a) = processes a
  ∧ processes (startup (Decoded config)) = ∅
  ∧ (∀ id, is_Some (Servers config !! id) →
           (GetServerStatus id (startup (Decoded config))).1 = (true, false)).
Proof.
  split; [apply loadConfig_records|].
  split; [apply loadConfig_rest|]. split; [apply loadConfig_rest|].
  split; [apply (loadConfig_rest config NewApp)|].
  intros id [s Hs].
  rewrite (GetServerStatus_records id (startup (Decoded config)) (set_Running false s));
    [done|].
  unfold startup. by rewrite loadConfig_records, lookup_fmap, Hs.
Qed.

Lemma loadConfig_restores_witness :
  is_Some (Servers Scenario.saved_running !! "1")
  ∧ Running <$> Servers Scenario.saved_running !! "1" = Some true
  ∧ (GetServerStatus "1" (startup (Decoded Scenario.saved_running))).1 = (true, false)
  ∧ processes (startup (Decoded Scenario.saved_running)) = ∅.
Proof.
  assert (Hsaved : is_Some (Servers Scenario.saved_running !! "1"))
    by (vm_compute; eauto).
  destruct (loadConfig_restores Scenario.saved_running NewApp)
    as (_ & _ & _ & Hproc & Hstatus).
  split; [exact Hsaved|]. split; [reflexivity|].
  split; [exact (Hstatus "1" Hsaved)|exact Hproc].
Defined.

(** The end-to-end scenario of the specification. *)
Example end_to_end :
  (CreateServer "web1" "9090" "/srv/app" NewApp).1 = "1"
  ∧ (StartServer Scenario.os_ok "1" Scenario.created).1 = true
  ∧ (GetServerStatus "1" Scenario.started).1 = (true, true)
  ∧ (StopServer Scenario.os_ok "1" Scenario.started).1 = true
  ∧ (GetServerStatus "1" (StopServer Scenario.os_ok "1" Scenario.started).2).1
    = (true, false)
  ∧ (DeleteServer Scenario.os_ok "1" (StopServer Scenario.os_ok "1" Scenario.started).2).1
    = true
  ∧ (GetServerStatus "1"
       (DeleteServer Scenario.os_ok "1"
          (StopServer Scenario.os_ok "1" Scenario.started).2).2).1
    = (false, false).
Proof. vm_compute. repeat split. Qed.

(** *** What a step changes in the server map and in [nextID] *)

Lemma StopServer_registry os id a :
  servers (StopServer os id a).2 = servers a
  ∧ nextID (StopServer os id a).2 = nextID a.
Proof.
  unfold StopServer. destruct (servers a !! id) as [q|]; [|done].
  destruct (negb _); [done|].
  by destruct (processes a !! id) as [cmd|]; [destruct (Kill os cmd)|].
Qed.

Lemma StartServer_registry os id a :
  servers (StartServer os id a).2 = servers a
  ∧ nextID (StartServer os id a).2 = nextID a.
Proof.
  unfold StartServer. destruct (servers a !! id) as [q|]; [|done].
  destruct (Running _); [done|]. by destruct (Start os _).
Qed.

Lemma UpdateServer_registry os id name port directory a :
  servers (UpdateServer os id name port directory a).2 = servers a
  ∧ nextID (UpdateServer os id name port directory a).2 = nextID a.
Proof.
  unfold UpdateServer. destruct (servers a !! id) as [q|]; [|done]. simpl.
  destruct (Running _); [apply StopServer_registry|done].
Qed.

Lemma DeleteServer_registry os id a :
  servers (DeleteServer os id a).2 = delete id (servers a)
  ∧ nextID (DeleteServer os id a).2 = nextID a.
Proof.
  unfold DeleteServer. destruct (servers a !! id) as [q|] eqn:Hq; simpl.
  - destruct (Running _); [|done].
    by destruct (StopServer_registry os id a) as [-> ->].
  - split; [|done]. symmetry. by apply delete_id.
Qed.

(** *** Every pointer of the map is allocated *)

Lemma wf_NewApp : wf NewApp.
Proof. intros id p. unfold NewApp. simpl. by rewrite lookup_empty. Qed.

Lemma wf_shrink a a' :
  (∀ id p, servers a' !! id = Some p → servers a !! id = Some p) →
  length (heap a') = length (heap a) →
  wf a → wf a'.
Proof. intros Hsub Hlen Ha id p Hp. rewrite Hlen. eapply Ha, Hsub, Hp. Qed.

Lemma StartServer_heap_length os id a :
  length (heap (StartServer os id a).2) = length (heap a).
Proof.
  unfold StartServer. destruct (servers a !! id) as [q|]; [|done].
  destruct (Running _); [done|].
  destruct (Start os _); simpl; by rewrite ?length_alter.
Qed.

Lemma UpdateServer_heap_length os id name port directory a :
  length (heap (UpdateServer os id name port directory a).2) = length (heap a).
Proof.
  unfold UpdateServer. destruct (servers a !! id) as [q|]; [|done]. simpl.
  rewrite length_alter. destruct (Running _); [apply StopServer_heap_length|done].
Qed.

Lemma DeleteServer_heap_length os id a :
  length (heap (DeleteServer os id a).2) = length (heap a).
Proof.
  unfold DeleteServer. destruct (servers a !! id) as [q|]; [|done]. simpl.
  destruct (Running _); [apply StopServer_heap_length|done].
Qed.

Lemma wf_run o a : wf a → wf (run o a).
Proof.
  intros Ha. destruct o as [n0 p0 d0|os id n p d|os id|os id|os id|id| |id q]; simpl.
  - intros id p. simpl. rewrite length_app. simpl.
    destruct (decide (Itoa (nextID a) = id)) as [<-|Hne].
    + rewrite lookup_insert_eq. intros [= <-]. lia.
    + rewrite lookup_insert_ne by done. intros Hp. specialize (Ha _ _ Hp). lia.
  - apply (wf_shrink a); [|apply UpdateServer_heap_length|done].
    by rewrite (proj1 (UpdateServer_registry os id n p d a)).
  - apply (wf_shrink a); [|apply DeleteServer_heap_length|done].
    rewrite (proj1 (DeleteServer_registry os id a)). intros id' p.
    rewrite lookup_delete_Some. by intros [_ ?].
  - apply (wf_shrink a); [|apply StartServer_heap_length|done].
    by rewrite (proj1 (StartServer_registry os id a)).
  - apply (wf_shrink a); [|apply StopServer_heap_length|done].
    by rewrite (proj1 (StopServer_registry os id a)).
  - unfold GetServerStatus. by destruct (servers a !! id).
  - done.
  - apply (wf_shrink a); [done| |done]. simpl. apply length_alter.
Qed.



(** *** Identities *)

Lemma ids_below_next_shrink a a' :
  (∀ id, is_Some (servers a' !! id) → is_Some (servers a !! id)) →
  nextID a' = nextID a →
  ids_below_next a → ids_below_next a'.
Proof. intros Hsub Hnext Ha id Hid. rewrite Hnext. apply Ha, Hsub, Hid. Qed.

Lemma CreateServer_fresh name port directory a :
  ids_below_next a → (min_int ≤ nextID a ≤ max_int)%Z →
  (CreateServer name port directory a).1 = Itoa (nextID a)
  ∧ servers a !! Itoa (nextID a) = None.
Proof.
  intros Ha Hint. split; [done|].
  destruct (servers a !! Itoa (nextID a)) as [p|] eqn:Hp; [|done].
  destruct (Ha (Itoa (nextID a))) as (n & Hn & Hlt); [by rewrite Hp|].
  rewrite Atoi_Itoa in Hn by done. injection Hn as <-. lia.
Qed.

Lemma CreateServer_ids_below_next name port directory a :
  ids_below_next a → (min_int ≤ nextID a < max_int)%Z →
  ids_below_next (CreateServer name port directory a).2.
Proof.
  intros Ha Hint id. unfold CreateServer. simpl.
  rewrite wrap_int_small by lia.
  destruct (decide (Itoa (nextID a) = id)) as [<-|Hne].
  - intros _. exists (nextID a). split; [apply Atoi_Itoa|]; lia.
  - rewrite lookup_insert_ne by done. intros Hid.
    destruct (Ha id Hid) as (n & Hn & Hlt). exists n. split; [done|lia].
Qed.

Lemma run_int o a :
  (min_int ≤ nextID a ≤ max_int)%Z → (min_int ≤ nextID (run o a) ≤ max_int)%Z.
Proof.
  intros Hint. destruct o as [n p d|os id n p d|os id|os id|os id|id| |id q]; simpl;
    rewrite ?(proj2 (UpdateServer_registry _ _ _ _ _ _)),
      ?(proj2 (DeleteServer_registry _ _ _)), ?(proj2 (StartServer_registry _ _ _)),
      ?(proj2 (StopServer_registry _ _ _)); try done.
  - apply wrap_int_range.
  - unfold GetServerStatus. by destruct (servers a !! id).
Qed.

(** C8, as the code has it: as long as [CreateServer] is not called with
    [nextID] at the largest [int] (where [nextID++] wraps around to the
    least one), every operation of the supervisor, and the watcher, keeps
    the numeric value of every identity of the map below [nextID].  Under
    that invariant [CreateServer] issues the decimal form of [nextID], which
    the map does not hold yet, and below the largest [int] it increments
    [nextID] by one. *)
Theorem ids_below_next_preserved (a : App) :
  ids_below_next a → (min_int ≤ nextID a ≤ max_int)%Z →
  (∀ o, ((∃ name port directory, o = Create name port directory) →
         (nextID a < max_int)%Z) →
        ids_below_next (run o a))
  ∧ (∀ name port directory,
       (CreateServer name port directory a).1 = Itoa (nextID a)
       ∧ servers a !! Itoa (nextID a) = None
       ∧ ((nextID a < max_int)%Z →
          nextID (CreateServer name port directory a).2 = (nextID a + 1)%Z)).
Proof.
  intros Ha Hint. split.
  - intros o Hcreate.
    destruct o as [n p d|os id n p d|os id|os id|os id|id| |id q]; simpl.
    + apply CreateServer_ids_below_next; [done|].
      split; [lia|]. apply Hcreate. eauto.
    + destruct (UpdateServer_registry os id n p d a) as [Hs Hn].
      apply (ids_below_next_shrink a); [by rewrite Hs|done|done].
    + destruct (DeleteServer_registry os id a) as [Hs Hn].
      apply (ids_below_next_shrink a); [|done|done].
      intros id'. rewrite Hs. destruct (decide (id = id')) as [->|Hne].
      * rewrite lookup_delete_eq. by intros [? ?].
      * by rewrite lookup_delete_ne.
    + destruct (StartServer_registry os id a) as [Hs Hn].
      apply (ids_below_next_shrink a); [by rewrite Hs|done|done].
    + destruct (StopServer_registry os id a) as [Hs Hn].
      apply (ids_below_next_shrink a); [by rewrite Hs|done|done].
    + unfold GetServerStatus. by destruct (servers a !! id).
    + done.
    + by apply (ids_below_next_shrink a).
  - intros name port directory.
    destruct (CreateServer_fresh name port directory a Ha Hint) as [Hid Hfresh].
    split; [done|]. split; [done|]. intros Hlt. unfold CreateServer. simpl.
    apply wrap_int_small. lia.
Qed.

Lemma created_ids_below_next : ids_below_next Scenario.created.
Proof.
  intros id [p Hp].
  change (servers Scenario.created) with (<["1" := 0]> (∅ : gmap string nat)) in Hp.
  destruct (decide ("1" = id)) as [<-|Hne].
  - exists 1%Z. vm_compute. split; reflexivity.
  - by rewrite lookup_insert_ne, lookup_empty in Hp.
Qed.

Lemma ids_below_next_preserved_witness :
  ids_below_next Scenario.created
  ∧ ids_below_next (run (Create "web2" "9091" "/srv/other") Scenario.created)
  ∧ (CreateServer "web2" "9091" "/srv/other" Scenario.created).1 = "2"
  ∧ nextID (CreateServer "web2" "9091" "/srv/other" Scenario.created).2 = 3%Z.
Proof.
  pose proof created_ids_below_next as Hinv.
  destruct (ids_below_next_preserved Scenario.created Hinv) as [Hrun Hcreate];
    [vm_compute; split; discriminate|].
  split; [exact Hinv|]. split.
  - apply Hrun. intros _. vm_compute. reflexivity.
  - destruct (Hcreate "web2" "9091" "/srv/other") as (Hid & _ & Hnext).
    split; [exact Hid|]. apply Hnext. vm_compute. reflexivity.
Defined.

(** C8, as the claim states it, fails at the largest [int]: the application
    started from a snapshot with [nextID] = 9223372036854775807 satisfies
    the invariant, [CreateServer] issues that identity and wraps [nextID]
    around, and the invariant is lost. *)
Lemma ids_below_next_lost_at_max_int :
  ids_below_next (startup (Decoded Scenario.saved_last_id))
  ∧ nextID (startup (Decoded Scenario.saved_last_id)) = 9223372036854775807%Z
  ∧ (CreateServer "web1" "9090" "/srv/app"
       (startup (Decoded Scenario.saved_last_id))).1 = "9223372036854775807"
  ∧ nextID (run (Create "web1" "9090" "/srv/app")
              (startup (Decoded Scenario.saved_last_id))) = (-9223372036854775808)%Z
  ∧ ¬ ids_below_next (run (Create "web1" "9090" "/srv/app")
                        (startup (Decoded Scenario.saved_last_id))).
Proof.
  split.
  { intros id [p Hp].
    change (servers (startup (Decoded Scenario.saved_last_id)))
      with (∅ : gmap string nat) in Hp.
    by rewrite lookup_empty in Hp. }
  split; [vm_compute; reflexivity|].
  split; [vm_compute; reflexivity|].
  split; [vm_compute; reflexivity|].
  intros Hinv.
  destruct (Hinv "9223372036854775807") as (n & Hn & Hlt).
  { vm_compute. eauto. }
  vm_compute in Hn. injection Hn as <-. vm_compute in Hlt. discriminate.
Qed.

(** The invariant survives a restart from the snapshot [saveConfig] wrote. *)
Lemma restart_ids_below_next (a : App) :
  ids_below_next a → ids_below_next (startup (Decoded (saveConfig a))).
Proof.
  intros Ha id Hid.
  pose proof (loadConfig_records (saveConfig a) NewApp) as Hrec.
  destruct (loadConfig_rest (saveConfig a) NewApp) as [Hnext _].
  unfold startup. rewrite Hnext. simpl. apply Ha.
  assert (Hsome : is_Some (records (loadConfig (Decoded (saveConfig a)) NewApp) !! id)).
  { unfold records. rewrite lookup_fmap. by apply fmap_is_Some. }
  rewrite Hrec in Hsome. simpl in Hsome.
  rewrite !lookup_fmap in Hsome. by rewrite !fmap_is_Some in Hsome.
Qed.

(** *** Further properties of the supervisor *)

Lemma wf_created : wf Scenario.created.
Proof. apply (wf_run (Create "web1" "9090" "/srv/app") NewApp), wf_NewApp. Qed.

Lemma wf_started : wf Scenario.started.
Proof. apply (wf_run (StartOp Scenario.os_ok "1") Scenario.created), wf_created. Qed.



(** X2: in a state where every pointer of the map is allocated,
    [CreateServer] changes the records of the map only at the identity it
    issues: every other server keeps its record. *)
Theorem CreateServer_records (name port directory : string) (a : App) :
  wf a →
  records (CreateServer name port directory a).2
  = <[Itoa (nextID a) := mkServer (Itoa (nextID a)) name port directory false "" ""]>
      (records a).
Proof.
  intros Ha. apply map_eq. intros id. unfold records, CreateServer. simpl.
  destruct (decide (Itoa (nextID a) = id)) as [<-|Hne].
  - rewrite lookup_fmap, !lookup_insert_eq. simpl. f_equal.
    unfold load. simpl. by rewrite list_lookup_total_middle.
  - rewrite lookup_insert_ne by done. rewrite !lookup_fmap, lookup_insert_ne by done.
    destruct (servers a !! id) as [p|] eqn:Hp; [|done]. simpl. f_equal.
    unfold load. simpl. apply lookup_total_app_l. by eapply Ha.
Qed.

Lemma CreateServer_records_witness :
  wf Scenario.created
  ∧ records (CreateServer "web2" "9091" "/srv/other" Scenario.created).2 !! "1"
    = Some (mkServer "1" "web1" "9090" "/srv/app" false "" "").
Proof.
  split; [exact wf_created|].
  rewrite (CreateServer_records "web2" "9091" "/srv/other" Scenario.created wf_created).
  vm_compute. reflexivity.
Defined.

(** X3: [StartServer] returns [true] exactly when the server exists, is
    not running and the operating system starts the command; when it
    returns [false] the state is unchanged; when it returns [true] the
    record is marked running, the command is stored under the identity, and
    the server map and [nextID] are as before. *)
Theorem StartServer_outcome (os : OS) (id : string) (a : App) :
  ((StartServer os id a).1 = true
   ↔ ∃ p, servers a !! id = Some p ∧ Running (load a p) = false
          ∧ Start os (start_command os (load a p)) = true)
  ∧ ((StartServer os id a).1 = false → (StartServer os id a).2 = a)
  ∧ (∀ p, servers a !! id = Some p → p < length (heap a) →
          (StartServer os id a).1 = true →
          load (StartServer os id a).2 p = set_Running true (load a p)
          ∧ processes (StartServer os id a).2
            = <[id := start_command os (load a p)]> (processes a)
          ∧ servers (StartServer os id a).2 = servers a
          ∧ nextID (StartServer os id a).2 = nextID a).
Proof.
  unfold StartServer. destruct (servers a !! id) as [q|] eqn:Hq.
  - destruct (Running (load a q)) eqn:Hrun.
    + split; [|done]. split; [done|]. intros (p & [= <-] & Hp & _). congruence.
    + destruct (Start os _) eqn:Hstart; simpl.
      * split; [split; [eauto|done]|]. split; [done|].
        intros p [= <-] Hlen _. by rewrite load_store_eq.
      * split; [|done]. split; [done|]. intros (p & [= <-] & _ & Hp). congruence.
  - split; [|done]. split; [done|]. by intros (p & ? & _).
Qed.

Lemma StartServer_outcome_witness :
  (∃ p, servers Scenario.created !! "1" = Some p
        ∧ Running (load Scenario.created p) = false
        ∧ Start Scenario.os_ok (start_command Scenario.os_ok (load Scenario.created p))
          = true)
  ∧ (StartServer Scenario.os_ok "1" Scenario.created).1 = true
  ∧ (StartServer Scenario.os_down "1" Scenario.created).2 = Scenario.created
  ∧ Running (load (StartServer Scenario.os_ok "1" Scenario.created).2 0) = true.
Proof.
  assert (Hpre : ∃ p, servers Scenario.created !! "1" = Some p
        ∧ Running (load Scenario.created p) = false
        ∧ Start Scenario.os_ok (start_command Scenario.os_ok (load Scenario.created p))
          = true) by (exists 0; repeat split).
  split; [exact Hpre|].
  destruct (StartServer_outcome Scenario.os_ok "1" Scenario.created) as (Hiff & _ & Hok).
  destruct (StartServer_outcome Scenario.os_down "1" Scenario.created) as (_ & Hfail & _).
  split; [by apply Hiff|]. split; [apply Hfail; reflexivity|].
  destruct (Hok 0) as (Hload & _); [reflexivity | vm_compute; lia | by apply Hiff|].
  by rewrite Hload.
Defined.

(** X4: when [StopServer] returns [false] the state is unchanged; when it
    returns [true] the record was running and is now stopped, and the
    process table has lost the entry of the identity; for a running server
    with a handle the result is the result of the kill. *)
Theorem StopServer_outcome (os : OS) (id : string) (a : App) :
  ((StopServer os id a).1 = false → (StopServer os id a).2 = a)
  ∧ (∀ p, servers a !! id = Some p → p < length (heap a) →
          (StopServer os id a).1 = true →
          Running (load a p) = true
          ∧ load (StopServer os id a).2 p = set_Running false (load a p)
          ∧ processes (StopServer os id a).2 = delete id (processes a)
          ∧ servers (StopServer os id a).2 = servers a)
  ∧ (∀ p cmd, servers a !! id = Some p → Running (load a p) = true →
              processes a !! id = Some cmd →
              (StopServer os id a).1 = Kill os cmd).
Proof.
  unfold StopServer. destruct (servers a !! id) as [q|] eqn:Hq; [|done].
  destruct (Running (load a q)) eqn:Hrun; cbn [negb fst snd].
  - destruct (processes a !! id) as [cmd|] eqn:Hcmd.
    + destruct (Kill os cmd) eqn:Hkill; cbn [fst snd].
      * split; [done|]. split; [|by intros p c [= <-] _ [= <-]].
        intros p [= <-] Hlen _. by rewrite load_store_eq.
      * split; [done|]. split; [done|]. by intros p c [= <-] _ [= <-].
    + cbn [fst snd]. split; [done|]. split; [|done].
      intros p [= <-] Hlen _. rewrite load_store_eq by done.
      split; [done|]. split; [done|]. split; [|done].
      change (processes (store (set_Running false) q a)) with (processes a).
      symmetry. by apply delete_id.
  - split; [done|]. split; [done|]. intros p c [= <-]. congruence.
Qed.

Lemma StopServer_outcome_witness :
  (servers Scenario.started !! "1" = Some 0 ∧ 0 < length (heap Scenario.started))
  ∧ (StopServer Scenario.os_down "1" Scenario.started).2 = Scenario.started
  ∧ load (StopServer Scenario.os_ok "1" Scenario.started).2 0
    = set_Running false (load Scenario.started 0)
  ∧ (StopServer Scenario.os_down "1" Scenario.started).1 = false.
Proof.
  split; [split; [reflexivity | vm_compute; lia]|].
  destruct (StopServer_outcome Scenario.os_down "1" Scenario.started) as (Hfail & _ & Hkill).
  destruct (StopServer_outcome Scenario.os_ok "1" Scenario.started) as (_ & Hok & _).
  split; [apply Hfail; reflexivity|]. split.
  - destruct (Hok 0) as (_ & Hload & _); [reflexivity | vm_compute; lia | reflexivity|].
    exact Hload.
  - rewrite (Hkill 0 (start_command Scenario.os_ok (load Scenario.created 0)));
      reflexivity.
Defined.

Lemma set_Running_same (s : Server) : set_Running (Running s) s = s.
Proof. by destruct s. Qed.

Lemma alter_stop_start (h : list Server) (p : nat) :
  Running (h !!! p) = false →
  alter (set_Running false) p (alter (set_Running true) p h) = h.
Proof.
  intros Hrun. apply list_eq. intros i.
  destruct (decide (p = i)) as [<-|Hne].
  - rewrite !list_lookup_alter_eq. destruct (h !! p) as [s|] eqn:Hs; [|done].
    simpl. f_equal. rewrite (list_lookup_total_correct _ _ _ Hs) in Hrun.
    rewrite <- (set_Running_same s) at 2. by rewrite Hrun.
  - by rewrite !list_lookup_alter_ne.
Qed.

(** X5: starting a stopped server that has no handle and then stopping it
    with a kill that succeeds gives back exactly the state before the start;
    so does the watcher of that start when the process exits. *)
Theorem StartServer_then_stop (os os' : OS) (id : string) (p : ptr) (a : App) :
  servers a !! id = Some p → p < length (heap a) →
  Running (load a p) = false → processes a !! id = None →
  Start os (start_command os (load a p)) = true →
  Kill os' (start_command os (load a p)) = true →
  StopServer os' id (StartServer os id a).2 = (true, a)
  ∧ watcher id p (StartServer os id a).2 = a.
Proof.
  intros Hp Hlen Hrun Hproc Hstart Hkill.
  assert (Hstarted : (StartServer os id a).2
                     = store (set_Running true) p
                         (mkApp (heap a) (servers a) (nextID a)
                            (<[id := start_command os (load a p)]> (processes a)))).
  { unfold StartServer. by rewrite Hp, Hrun, Hstart. }
  rewrite Hstarted.
  assert (Hback : watcher id p
                    (store (set_Running true) p
                       (mkApp (heap a) (servers a) (nextID a)
                          (<[id := start_command os (load a p)]> (processes a))))
                  = a).
  { unfold watcher, store. simpl. rewrite alter_stop_start by done.
    rewrite delete_insert_eq, delete_id by done. by destruct a. }
  split; [|exact Hback].
  unfold StopServer.
  change (servers (store _ p _)) with (servers a).
  change (processes (store (set_Running true) p _))
    with (<[id := start_command os (load a p)]> (processes a)).
  rewrite Hp, load_store_eq by done. simpl.
  rewrite lookup_insert_eq, Hkill. f_equal. exact Hback.
Qed.

Lemma StartServer_then_stop_witness :
  (servers Scenario.created !! "1" = Some 0
   ∧ Running (load Scenario.created 0) = false
   ∧ processes Scenario.created !! "1" = None)
  ∧ StopServer Scenario.os_ok "1" (StartServer Scenario.os_ok "1" Scenario.created).2
    = (true, Scenario.created)
  ∧ watcher "1" 0 (StartServer Scenario.os_ok "1" Scenario.created).2 = Scenario.created.
Proof.
  split; [repeat split|].
  apply (StartServer_then_stop Scenario.os_ok Scenario.os_ok "1" 0 Scenario.created);
    first [reflexivity | vm_compute; lia].
Defined.

Lemma StopServer_processes_kept os id a cmd :
  processes a !! id = Some cmd → Kill os cmd = false →
  (StopServer os id a).2 = a.
Proof.
  intros Hcmd Hkill. unfold StopServer. destruct (servers a !! id) as [q|]; [|done].
  destruct (negb _); [done|]. by rewrite Hcmd, Hkill.
Qed.

(** X6: [DeleteServer] returns [true] exactly when the identity is in the
    map; afterwards the map is the old one without the identity, its status
    is (false, false) and [nextID] is as before; and when the server was
    running and the kill fails, the record is removed all the same and its
    handle stays in the process table. *)
Theorem DeleteServer_outcome (os : OS) (id : string) (a : App) :
  ((DeleteServer os id a).1 = true ↔ is_Some (servers a !! id))
  ∧ servers (DeleteServer os id a).2 = delete id (servers a)
  ∧ (GetServerStatus id (DeleteServer os id a).2).1 = (false, false)
  ∧ nextID (DeleteServer os id a).2 = nextID a
  ∧ (∀ p cmd, servers a !! id = Some p → Running (load a p) = true →
              processes a !! id = Some cmd → Kill os cmd = false →
              processes (DeleteServer os id a).2 !! id = Some cmd).
Proof.
  destruct (DeleteServer_registry os id a) as [Hservers Hnext].
  split; [|split; [done|split; [|split; [done|]]]].
  - unfold DeleteServer. destruct (servers a !! id) as [q|]; simpl.
    + split; eauto.
    + split; [done|]. by intros [? ?].
  - unfold GetServerStatus. by rewrite Hservers, lookup_delete_eq.
  - intros p cmd Hp Hrun Hcmd Hkill. unfold DeleteServer. rewrite Hp, Hrun. simpl.
    by rewrite (StopServer_processes_kept os id a cmd).
Qed.

Lemma DeleteServer_outcome_witness :
  is_Some (servers Scenario.started !! "1")
  ∧ (DeleteServer Scenario.os_down "1" Scenario.started).1 = true
  ∧ servers (DeleteServer Scenario.os_down "1" Scenario.started).2 !! "1" = None
  ∧ is_Some (processes (DeleteServer Scenario.os_down "1" Scenario.started).2 !! "1").
Proof.
  assert (Hin : is_Some (servers Scenario.started !! "1")) by (vm_compute; eauto).
  split; [exact Hin|].
  destruct (DeleteServer_outcome Scenario.os_down "1" Scenario.started)
    as (Hiff & Hmap & _ & _ & Hleak).
  split; [by apply Hiff|]. split; [by rewrite Hmap, lookup_delete_eq|].
  erewrite (Hleak 0); [eauto | reflexivity..].
Defined.

Lemma Running_set_config name port directory s :
  Running (set_config name port directory s) = Running s.
Proof. done. Qed.

(** X7: [UpdateServer] returns [true] exactly when the identity is in the
    map, and changes nothing when it is not.  For a server of the map it
    overwrites name, port and directory and keeps the identity field and the
    interface name and address, also when the port changes; afterwards the
    server is still running exactly when it was running with a handle and
    the kill failed. *)
Theorem UpdateServer_outcome (os : OS) (id name port directory : string) (a : App) :
  ((UpdateServer os id name port directory a).1 = true ↔ is_Some (servers a !! id))
  ∧ (servers a !! id = None → (UpdateServer os id name port directory a).2 = a)
  ∧ (∀ p, servers a !! id = Some p → p < length (heap a) →
       ID (load (UpdateServer os id name port directory a).2 p) = ID (load a p)
       ∧ VLANInterface (load (UpdateServer os id name port directory a).2 p)
         = VLANInterface (load a p)
       ∧ IPv6Address (load (UpdateServer os id name port directory a).2 p)
         = IPv6Address (load a p)
       ∧ (Running (load (UpdateServer os id name port directory a).2 p) = true
          ↔ Running (load a p) = true
            ∧ ∃ cmd, processes a !! id = Some cmd ∧ Kill os cmd = false)).
Proof.
  split; [|split].
  - unfold UpdateServer. destruct (servers a !! id) as [q|]; simpl.
    + split; eauto.
    + split; [done|]. by intros [? ?].
  - intros Hnone. unfold UpdateServer. by rewrite Hnone.
  - intros p Hp Hlen. unfold UpdateServer. rewrite Hp. cbn [snd].
    destruct (Running (load a p)) eqn:Hrun.
    + rewrite load_store_eq by (by rewrite StopServer_heap_length).
      unfold StopServer. rewrite Hp, Hrun. cbn [negb].
      destruct (processes a !! id) as [cmd|] eqn:Hcmd.
      * destruct (Kill os cmd) eqn:Hkill; cbn [snd].
        -- rewrite load_store_eq by done. simpl.
           split; [done|]. split; [done|]. split; [done|].
           split; [done|]. intros [_ (c & [= <-] & Hc)]. congruence.
        -- simpl. split; [done|]. split; [done|]. split; [done|].
           rewrite Hrun. split; [eauto|done].
      * cbn [snd]. rewrite load_store_eq by done. simpl.
        split; [done|]. split; [done|]. split; [done|].
        split; [done|]. by intros [_ (c & ? & _)].
    + rewrite load_store_eq by done. simpl.
      split; [done|]. split; [done|]. split; [done|].
      rewrite Hrun. split; [done|]. by intros [? _].
Qed.

Lemma UpdateServer_outcome_witness :
  (servers Scenario.started !! "1" = Some 0 ∧ 0 < length (heap Scenario.started))
  ∧ Running (load (UpdateServer Scenario.os_down "1" "web2" "9091" "/srv/other"
                     Scenario.started).2 0) = true
  ∧ Port (load (UpdateServer Scenario.os_down "1" "web2" "9091" "/srv/other"
                  Scenario.started).2 0) = "9091"
  ∧ (UpdateServer Scenario.os_ok "7" "web2" "9091" "/srv/other" Scenario.started).2
    = Scenario.started.
Proof.
  split; [split; [reflexivity | vm_compute; lia]|].
  destruct (UpdateServer_outcome Scenario.os_down "1" "web2" "9091" "/srv/other"
              Scenario.started) as (_ & _ & Hrec).
  destruct (UpdateServer_outcome Scenario.os_ok "7" "web2" "9091" "/srv/other"
              Scenario.started) as (_ & Hnone & _).
  destruct (Hrec 0) as (_ & _ & _ & Hrun); [reflexivity | vm_compute; lia|].
  split; [|split; [reflexivity | apply Hnone; reflexivity]].
  apply Hrun. split; [reflexivity|].
  exists (start_command Scenario.os_ok (load Scenario.created 0)). split; reflexivity.
Defined.

(** *** Running servers have a handle *)






Lemma wf_StopServer os id a : wf a → wf (StopServer os id a).2.
Proof. apply (wf_run (Stop os id)). Qed.








(** *** Saving, restarting and shutting down *)







End SupervisorFacts.

(** ** The provisioner *)

Module ProvisionerFacts.
Import strconv Provisioner.

Example main_interface : getMainInterface Scenario.net_ok = Some "eth0".
Proof. reflexivity. Qed.

Example main_interface_fallback :
  getMainInterface (mkOS (Some [Scenario.lo; mkInterface "docker0" 19]) (λ _, true))
  = Some "wlan0".
Proof. reflexivity. Qed.

Example commands_8080 :
  link_add "eth0" (derive "fd00:1:2:3/64" "8080" 8080)
  = ["sudo"; "ip"; "link"; "add"; "link"; "eth0"; "name"; "vlan8080";
     "type"; "vlan"; "id"; "8080"]
  ∧ addr_add (derive "fd00:1:2:3/64" "8080" 8080)
    = ["sudo"; "ip"; "-6"; "addr"; "add"; "fd00:1:2:3::8080/64"; "dev"; "vlan8080"].
Proof. vm_compute. auto. Qed.

(** The rule of [CreateVLANInterface]: the name is [vlan] and the decimal
    port number, the tag is the port number, the address is the prefix
    without its first [/64], then [::], then the port as it was given. *)
Lemma derive_rule (ipv6Prefix port : string) (portNum : Z) :
  Name (derive ipv6Prefix port portNum) = "vlan" +:+ Itoa portNum
  ∧ VLANID (derive ipv6Prefix port portNum) = portNum
  ∧ IPv6Address (derive ipv6Prefix port portNum)
    = strings.Replace1 ipv6Prefix "/64" "" +:+ "::" +:+ port
  ∧ Port (derive ipv6Prefix port portNum) = port
  ∧ Active (derive ipv6Prefix port portNum) = false.
Proof. done. Qed.

Lemma createLinuxVLANInterface_ok os vlan vlan' :
  createLinuxVLANInterface os vlan = (vlan', None) → vlan' = set_Active true vlan.
Proof.
  unfold createLinuxVLANInterface. destruct (getMainInterface os) as [m|]; [|done].
  destruct (Run os (link_add m vlan)); [|done].
  destruct (Run os (link_up vlan)); [|done].
  destruct (Run os (addr_add vlan)); [|done].
  simpl. congruence.
Qed.

(** A call that returns an error has changed nothing and returns no
    identity. *)
Lemma CreateVLANInterface_error os port vm err :
  (CreateVLANInterface os port vm).1.2 = Some err →
  (CreateVLANInterface os port vm).2 = vm ∧ (CreateVLANInterface os port vm).1.1 = None.
Proof.
  unfold CreateVLANInterface. destruct (portToVLAN vm !! port) as [name|]; [done|].
  destruct (Atoi port) as [n|]; [|done].
  destruct (createLinuxVLANInterface os _) as [v [e|]]; done.
Qed.

Lemma CreateVLANInterface_registered os port vm name :
  portToVLAN vm !! port = Some name →
  CreateVLANInterface os port vm = ((interfaces vm !! name, None), vm).
Proof. intros Hport. unfold CreateVLANInterface. by rewrite Hport. Qed.

(** C2: for a port that has a registered identity, [CreateVLANInterface]
    returns that identity and no error and changes neither map; and when a
    call returns without error, the next call for the same port returns the
    same identity, without error and without changing anything, whatever the
    operating system answers. *)
Theorem CreateVLANInterface_idempotent (os : OS) (port : string) (vm : VLANManager) :
  (∀ v, GetVLANForPort port vm = Some v →
        CreateVLANInterface os port vm = ((Some v, None), vm))
  ∧ (∀ r vm' os', CreateVLANInterface os port vm = ((r, None), vm') →
                  CreateVLANInterface os' port vm' = ((r, None), vm')).
Proof.
  split.
  - intros v. unfold GetVLANForPort.
    destruct (portToVLAN vm !! port) as [name|] eqn:Hport; [|done].
    intros Hv. by rewrite (CreateVLANInterface_registered os port vm name), Hv.
  - intros r vm' os'. unfold CreateVLANInterface at 1.
    destruct (portToVLAN vm !! port) as [name|] eqn:Hport.
    + intros [= <- <-]. by apply CreateVLANInterface_registered.
    + destruct (Atoi port) as [n|]; [|done].
      destruct (createLinuxVLANInterface os _) as [v [e|]]; [done|].
      intros [= <- <-].
      rewrite (CreateVLANInterface_registered os' port _ (Name v)); simpl.
      * by rewrite lookup_insert_eq.
      * by rewrite lookup_insert_eq.
Qed.

Lemma CreateVLANInterface_idempotent_witness :
  GetVLANForPort "8080" Scenario.vm8080
  = Some (mkVLANInterface "vlan8080" 8080 "2a0e:b107:384:ee25::::8080" "8080" true)
  ∧ CreateVLANInterface Scenario.net_down "8080" Scenario.vm8080
    = ((Some (mkVLANInterface "vlan8080" 8080 "2a0e:b107:384:ee25::::8080" "8080" true),
        None), Scenario.vm8080)
  ∧ CreateVLANInterface Scenario.net_down "8080"
      (CreateVLANInterface Scenario.net_ok "8080" Scenario.vm0).2
    = ((CreateVLANInterface Scenario.net_ok "8080" Scenario.vm0).1.1, None,
       (CreateVLANInterface Scenario.net_ok "8080" Scenario.vm0).2).
Proof.
  split; [reflexivity|]. split.
  - apply (CreateVLANInterface_idempotent Scenario.net_down "8080" Scenario.vm8080).
    reflexivity.
  - apply (CreateVLANInterface_idempotent Scenario.net_ok "8080" Scenario.vm0).
    reflexivity.
Defined.

(** C9: when a step of the creation fails ([net.Interfaces], or one of the
    three [ip] commands), [CreateVLANInterface] returns an error and the
    manager is as before, the port still unregistered; more generally every
    call that returns an error has changed nothing.  When the deletion
    command fails, [RemoveVLANInterface] returns an error and the manager is
    as before, identity and port entry included. *)
Theorem provisioner_atomic_on_error (os : OS) (port : string) (vm : VLANManager) :
  (∀ portNum, portToVLAN vm !! port = None → Atoi port = Some portNum →
     (Interfaces os = None
      ∨ ∃ l, Interfaces os = Some l
             ∧ (Run os (link_add (first_main l) (derive (ipv6Prefix vm) port portNum)) = false
                ∨ Run os (link_up (derive (ipv6Prefix vm) port portNum)) = false
                ∨ Run os (addr_add (derive (ipv6Prefix vm) port portNum)) = false)) →
     ∃ e, CreateVLANInterface os port vm = ((None, Some (CreateFailed e)), vm))
  ∧ (∀ err, (CreateVLANInterface os port vm).1.2 = Some err →
            (CreateVLANInterface os port vm).2 = vm)
  ∧ (∀ name vlan, portToVLAN vm !! port = Some name → interfaces vm !! name = Some vlan →
       Run os (link_delete vlan) = false →
       RemoveVLANInterface os port vm = (Return (Some RemoveFailed), vm)).
Proof.
  split; [|split].
  - intros n Hport Hatoi Hfail. unfold CreateVLANInterface. rewrite Hport, Hatoi.
    unfold createLinuxVLANInterface, getMainInterface.
    destruct Hfail as [->|(l & -> & Hstep)]; simpl; [by eexists|].
    destruct (Run os (link_add _ _)); simpl; [|by eexists].
    destruct (Run os (link_up _)); simpl; [|by eexists].
    destruct (Run os (addr_add _)); simpl; [|by eexists].
    by destruct Hstep as [?|[?|?]].
  - intros err Herr. by destruct (CreateVLANInterface_error os port vm err Herr).
  - intros name vlan Hport Hvlan Hrun. unfold RemoveVLANInterface.
    by rewrite Hport, Hvlan, Hrun.
Qed.

Lemma provisioner_atomic_on_error_witness :
  (portToVLAN Scenario.vm0 !! "8080" = None ∧ Atoi "8080" = Some 8080%Z)
  ∧ (∃ e, CreateVLANInterface Scenario.net_down "8080" Scenario.vm0
          = ((None, Some (CreateFailed e)), Scenario.vm0))
  ∧ (CreateVLANInterface Scenario.net_ok "http" Scenario.vm0).2 = Scenario.vm0
  ∧ RemoveVLANInterface Scenario.net_down "8080" Scenario.vm8080
    = (Return (Some RemoveFailed), Scenario.vm8080).
Proof.
  split; [split; reflexivity|].
  destruct (provisioner_atomic_on_error Scenario.net_down "8080" Scenario.vm0)
    as (Hcreate & _ & _).
  destruct (provisioner_atomic_on_error Scenario.net_ok "http" Scenario.vm0)
    as (_ & Herr & _).
  destruct (provisioner_atomic_on_error Scenario.net_down "8080" Scenario.vm8080)
    as (_ & _ & Hremove).
  split; [|split].
  - apply (Hcreate 8080%Z); [reflexivity | reflexivity |].
    right. exists [Scenario.lo; Scenario.eth0]. split; [reflexivity|]. left. reflexivity.
  - apply (Herr (InvalidPort "http")). reflexivity.
  - apply (Hremove "vlan8080"
             (mkVLANInterface "vlan8080" 8080 "2a0e:b107:384:ee25::::8080" "8080" true));
      reflexivity.
Defined.

(** C3 at the prefix [main] configures and the port of the README: the rule
    gives [vlan8080] and the tag 8080, and an address with four colons
    before the port, where the README documents
    [2a0e:b107:384:ee25::8080]. *)
Theorem derive_doubles_colons :
  (CreateVLANInterface Scenario.net_ok "8080"
     (NewVLANManager "2a0e:b107:384:ee25::/64")).1
  = (Some (mkVLANInterface "vlan8080" 8080 "2a0e:b107:384:ee25::::8080" "8080" true), None)
  ∧ IPv6Address (derive "2a0e:b107:384:ee25::/64" "8080" 8080)
    ≠ "2a0e:b107:384:ee25::8080".
Proof. split; [reflexivity|]. vm_compute. discriminate. Qed.

(** *** Further properties of the provisioner *)

Lemma createLinuxVLANInterface_steps os vlan :
  (createLinuxVLANInterface os vlan).2 = None
  ↔ ∃ l, Interfaces os = Some l
         ∧ Run os (link_add (first_main l) vlan) = true
         ∧ Run os (link_up vlan) = true
         ∧ Run os (addr_add vlan) = true.
Proof.
  unfold createLinuxVLANInterface, getMainInterface.
  destruct (Interfaces os) as [l|]; simpl.
  - destruct (Run os (link_add _ _)) eqn:H1; simpl;
      [|split; [done|intros (? & [= <-] & ? & _); congruence]].
    destruct (Run os (link_up _)) eqn:H2; simpl;
      [|split; [done|intros (? & _ & _ & ? & _); congruence]].
    destruct (Run os (addr_add _)) eqn:H3; simpl;
      [|split; [done|intros (? & _ & _ & _ & ?); congruence]].
    split; [eauto 6|done].
  - split; [done|]. by intros (? & ? & _).
Qed.

Lemma CreateVLANInterface_created os port vm n :
  portToVLAN vm !! port = None → Atoi port = Some n →
  (createLinuxVLANInterface os (derive (ipv6Prefix vm) port n)).2 = None →
  CreateVLANInterface os port vm
  = ((Some (set_Active true (derive (ipv6Prefix vm) port n)), None),
     mkVLANManager (ipv6Prefix vm)
       (<["vlan" +:+ Itoa n := set_Active true (derive (ipv6Prefix vm) port n)]>
          (interfaces vm))
       (<[port := "vlan" +:+ Itoa n]> (portToVLAN vm))).
Proof.
  intros Hport Hatoi Hok. unfold CreateVLANInterface. rewrite Hport, Hatoi.
  destruct (createLinuxVLANInterface os _) as [v err] eqn:Hcreate.
  simpl in Hok. subst err.
  by rewrite (createLinuxVLANInterface_ok _ _ _ Hcreate).
Qed.

(** X11: [CreateVLANInterface] returns an error exactly when the port is
    not registered and either does not parse or a step of the creation
    fails.  When it creates, the identity returned is the derived one marked
    active, and whenever it returns an identity, [GetVLANForPort] finds that
    identity under the port afterwards; the entries of the other ports of
    the index are untouched. *)
Theorem CreateVLANInterface_outcome (os : OS) (port : string) (vm : VLANManager) :
  ((CreateVLANInterface os port vm).1.2 = None
   ↔ is_Some (portToVLAN vm !! port)
     ∨ ∃ n, Atoi port = Some n
            ∧ (createLinuxVLANInterface os (derive (ipv6Prefix vm) port n)).2 = None)
  ∧ (∀ n, portToVLAN vm !! port = None → Atoi port = Some n →
          (createLinuxVLANInterface os (derive (ipv6Prefix vm) port n)).2 = None →
          (CreateVLANInterface os port vm).1.1
          = Some (set_Active true (derive (ipv6Prefix vm) port n)))
  ∧ (∀ v, (CreateVLANInterface os port vm).1 = (Some v, None) →
          GetVLANForPort port (CreateVLANInterface os port vm).2 = Some v)
  ∧ (∀ port', port' ≠ port →
          portToVLAN (CreateVLANInterface os port vm).2 !! port'
          = portToVLAN vm !! port').
Proof.
  split; [|split; [|split]].
  - unfold CreateVLANInterface. destruct (portToVLAN vm !! port) as [name|]; simpl.
    + split; eauto.
    + destruct (Atoi port) as [n|]; simpl.
      * destruct (createLinuxVLANInterface os _) as [v [e|]] eqn:Hc; simpl.
        -- split; [done|]. intros [[? ?]|(? & [= <-] & Hok)]; [done|].
           by rewrite Hc in Hok.
        -- split; [|done]. intros _. right. exists n. by rewrite Hc.
      * split; [done|]. intros [[? ?]|(? & ? & _)]; done.
  - intros n Hport Hatoi Hok.
    by rewrite (CreateVLANInterface_created os port vm n).
  - intros v. unfold CreateVLANInterface, GetVLANForPort.
    destruct (portToVLAN vm !! port) as [name|] eqn:Hport; simpl.
    + rewrite Hport. by intros [= ->].
    + destruct (Atoi port) as [n|]; [|done].
      destruct (createLinuxVLANInterface os _) as [v' [e|]]; simpl; [done|].
      intros [= <-]. by rewrite !lookup_insert_eq.
  - intros port' Hne. unfold CreateVLANInterface.
    destruct (portToVLAN vm !! port) as [name|]; [done|].
    destruct (Atoi port) as [n|]; [|done].
    destruct (createLinuxVLANInterface os _) as [v' [e|]]; simpl; [done|].
    by rewrite lookup_insert_ne.
Qed.

Lemma CreateVLANInterface_outcome_witness :
  (portToVLAN Scenario.vm0 !! "9090" = None ∧ Atoi "9090" = Some 9090%Z)
  ∧ (CreateVLANInterface Scenario.net_ok "9090" Scenario.vm0).1.2 = None
  ∧ (CreateVLANInterface Scenario.net_ok "9090" Scenario.vm0).1.1
    = Some (set_Active true (derive "2a0e:b107:384:ee25::/64" "9090" 9090))
  ∧ GetVLANForPort "8080" (CreateVLANInterface Scenario.net_down "8080" Scenario.vm8080).2
    = Some (set_Active true (derive "2a0e:b107:384:ee25::/64" "8080" 8080)).
Proof.
  split; [split; reflexivity|].
  destruct (CreateVLANInterface_outcome Scenario.net_ok "9090" Scenario.vm0)
    as (Hiff & Hnew & _).
  destruct (CreateVLANInterface_outcome Scenario.net_down "8080" Scenario.vm8080)
    as (_ & _ & Hget & _).
  split; [apply Hiff; right; exists 9090%Z; split; reflexivity|].
  split; [apply (Hnew 9090%Z); reflexivity|].
  apply Hget. reflexivity.
Defined.

(** X12: [RemoveVLANInterface] on a port that is not registered returns no
    error and changes nothing, whatever the operating system answers; on a
    registered port whose interface is in the map it returns the result of
    the deletion command, and on success both entries are gone, so that
    [GetVLANForPort] finds nothing, and the entries of the other ports are
    untouched; it panics exactly when the port is registered and its
    interface is missing from the map. *)
Theorem RemoveVLANInterface_outcome (os : OS) (port : string) (vm : VLANManager) :
  (portToVLAN vm !! port = None → RemoveVLANInterface os port vm = (Return None, vm))
  ∧ (∀ name vlan, portToVLAN vm !! port = Some name → interfaces vm !! name = Some vlan →
       Run os (link_delete vlan) = true →
       RemoveVLANInterface os port vm
       = (Return None,
          mkVLANManager (ipv6Prefix vm) (delete name (interfaces vm))
            (delete port (portToVLAN vm)))
       ∧ GetVLANForPort port (RemoveVLANInterface os port vm).2 = None
       ∧ ∀ port', port' ≠ port →
           portToVLAN (RemoveVLANInterface os port vm).2 !! port'
           = portToVLAN vm !! port')
  ∧ ((RemoveVLANInterface os port vm).1 = Panic
     ↔ ∃ name, portToVLAN vm !! port = Some name ∧ interfaces vm !! name = None).
Proof.
  unfold RemoveVLANInterface. split; [|split].
  - by intros ->.
  - intros name vlan -> -> ->. simpl. split; [done|]. split.
    + unfold GetVLANForPort. simpl. by rewrite lookup_delete_eq.
    + intros port' Hne. by rewrite lookup_delete_ne.
  - destruct (portToVLAN vm !! port) as [name|]; simpl.
    + destruct (interfaces vm !! name) as [vlan|] eqn:Hvlan; simpl.
      * split; [by destruct (Run os _)|]. intros (? & [= <-] & ?). congruence.
      * split; [eauto|done].
    + split; [done|]. by intros (? & ? & _).
Qed.

Lemma RemoveVLANInterface_outcome_witness :
  (portToVLAN Scenario.vm0 !! "8080" = None
   ∧ portToVLAN Scenario.vm8080 !! "8080" = Some "vlan8080")
  ∧ RemoveVLANInterface Scenario.net_down "8080" Scenario.vm0 = (Return None, Scenario.vm0)
  ∧ GetVLANForPort "8080" (RemoveVLANInterface Scenario.net_ok "8080" Scenario.vm8080).2
    = None.
Proof.
  split; [split; reflexivity|].
  destruct (RemoveVLANInterface_outcome Scenario.net_down "8080" Scenario.vm0)
    as (Hnone & _ & _).
  destruct (RemoveVLANInterface_outcome Scenario.net_ok "8080" Scenario.vm8080)
    as (_ & Hok & _).
  split; [apply Hnone; reflexivity|].
  destruct (Hok "vlan8080"
              (set_Active true (derive "2a0e:b107:384:ee25::/64" "8080" 8080)))
    as (_ & Hget & _); [reflexivity..|].
  exact Hget.
Defined.

Lemma remove_after_create (os os' : OS) (port : string) (n : Z) (vm : VLANManager) :
  portToVLAN vm !! port = None → Atoi port = Some n →
  interfaces vm !! ("vlan" +:+ Itoa n) = None →
  (createLinuxVLANInterface os (derive (ipv6Prefix vm) port n)).2 = None →
  Run os' (link_delete (set_Active true (derive (ipv6Prefix vm) port n))) = true →
  RemoveVLANInterface os' port (CreateVLANInterface os port vm).2 = (Return None, vm).
Proof.
  intros Hport Hatoi Hname Hok Hdel.
  rewrite (CreateVLANInterface_created os port vm n) by done.
  unfold RemoveVLANInterface. simpl. rewrite !lookup_insert_eq, Hdel. simpl.
  rewrite !delete_insert_eq, !delete_id by done. by destruct vm.
Qed.

(** X13: creating the identity of a port that is not registered, whose
    interface name is not in the map, and releasing it with a deletion that
    succeeds gives back exactly the manager before the creation. *)
Theorem CreateVLANInterface_then_remove
    (os os' : OS) (port : string) (n : Z) (vm : VLANManager) :
  portToVLAN vm !! port = None → Atoi port = Some n →
  interfaces vm !! ("vlan" +:+ Itoa n) = None →
  (createLinuxVLANInterface os (derive (ipv6Prefix vm) port n)).2 = None →
  Run os' (link_delete (set_Active true (derive (ipv6Prefix vm) port n))) = true →
  RemoveVLANInterface os' port (CreateVLANInterface os port vm).2 = (Return None, vm).
Proof. apply remove_after_create. Qed.

Lemma CreateVLANInterface_then_remove_witness :
  (portToVLAN Scenario.vm0 !! "8080" = None ∧ Atoi "8080" = Some 8080%Z)
  ∧ RemoveVLANInterface Scenario.net_ok "8080"
      (CreateVLANInterface Scenario.net_ok "8080" Scenario.vm0).2
    = (Return None, Scenario.vm0).
Proof.
  split; [split; reflexivity|].
  apply (CreateVLANInterface_then_remove Scenario.net_ok Scenario.net_ok "8080" 8080%Z
           Scenario.vm0); reflexivity.
Defined.

Lemma bookkeeping_created port vm n :
  portToVLAN vm !! port = None → Atoi port = Some n →
  bookkeeping_ok vm →
  bookkeeping_ok
    (mkVLANManager (ipv6Prefix vm)
       (<["vlan" +:+ Itoa n := set_Active true (derive (ipv6Prefix vm) port n)]>
          (interfaces vm))
       (<[port := "vlan" +:+ Itoa n]> (portToVLAN vm))).
Proof.
  intros Hport Hatoi Hvm name v. simpl. rewrite lookup_insert. case_decide as Hname.
  - intros [= <-]. simpl. subst name. by rewrite lookup_insert_eq.
  - intros Hv. destruct (Hvm name v Hv) as (H1 & H2 & H3 & H4).
    split; [done|]. split; [done|]. split; [done|].
    rewrite lookup_insert_ne; [done|]. intros Heq. rewrite <- Heq in H4. congruence.
Qed.

(** X14: the bookkeeping of the manager is consistent in every state it
    reaches: for [NewVLANManager], and after every [CreateVLANInterface] and
    [RemoveVLANInterface] whatever the operating system answers, every
    identity of the map is the one derived from its own port and marked
    active, is stored under its own name, and is what [GetVLANForPort] finds
    for its port; so is every identity [handleGetInterfaces] lists. *)
Theorem bookkeeping_preserved :
  (∀ ipv6Prefix, bookkeeping_ok (NewVLANManager ipv6Prefix))
  ∧ (∀ os port vm, bookkeeping_ok vm →
       bookkeeping_ok (CreateVLANInterface os port vm).2)
  ∧ (∀ os port vm, bookkeeping_ok vm →
       bookkeeping_ok (RemoveVLANInterface os port vm).2)
  ∧ (∀ vm v, bookkeeping_ok vm → v ∈ handleGetInterfaces vm →
       Active v = true
       ∧ Name v = "vlan" +:+ Itoa (VLANID v)
       ∧ Atoi (Port v) = Some (VLANID v)
       ∧ GetVLANForPort (Port v) vm = Some v).
Proof.
  split; [|split; [|split]].
  - intros prefix name v. unfold NewVLANManager. simpl. by rewrite lookup_empty.
  - intros os port vm Hvm. unfold CreateVLANInterface.
    destruct (portToVLAN vm !! port) as [name|] eqn:Hport; [done|].
    destruct (Atoi port) as [n|] eqn:Hatoi; [|done].
    destruct (createLinuxVLANInterface os _) as [v [e|]] eqn:Hc; [done|].
    rewrite (createLinuxVLANInterface_ok _ _ _ Hc). simpl.
    by apply bookkeeping_created.
  - intros os port vm Hvm. unfold RemoveVLANInterface.
    destruct (portToVLAN vm !! port) as [name|] eqn:Hport; [|done].
    destruct (interfaces vm !! name) as [vlan|]; [|done].
    destruct (negb _); [done|]. simpl.
    intros name' v. simpl. rewrite lookup_delete_Some. intros [Hne Hv].
    destruct (Hvm name' v Hv) as (H1 & H2 & H3 & H4).
    split; [done|]. split; [done|]. split; [done|].
    rewrite lookup_delete_ne; [done|]. intros Heq. rewrite <- Heq in H4. congruence.
  - intros vm v Hvm. unfold handleGetInterfaces. rewrite list_elem_of_fmap.
    intros ([name v'] & -> & Hin%elem_of_map_to_list). simpl.
    destruct (Hvm name v' Hin) as (H1 & H2 & H3 & H4).
    split; [by rewrite H2|]. split; [by rewrite H2 at 1|]. split; [done|].
    unfold GetVLANForPort. by rewrite H4.
Qed.

Lemma bookkeeping_vm8080 : bookkeeping_ok Scenario.vm8080.
Proof.
  apply (bookkeeping_created "8080" Scenario.vm0 8080); [done..|].
  intros name v. unfold Scenario.vm0, NewVLANManager. simpl. by rewrite lookup_empty.
Qed.

Lemma bookkeeping_preserved_witness :
  bookkeeping_ok Scenario.vm8080
  ∧ bookkeeping_ok (CreateVLANInterface Scenario.net_ok "9090" Scenario.vm8080).2
  ∧ bookkeeping_ok (RemoveVLANInterface Scenario.net_ok "8080" Scenario.vm8080).2.
Proof.
  destruct bookkeeping_preserved as (_ & Hcreate & Hremove & _).
  split; [exact bookkeeping_vm8080|].
  split; [apply Hcreate | apply Hremove]; exact bookkeeping_vm8080.
Defined.

Lemma is_main_true (iface : Interface) :
  is_main iface = true →
  N.land (Flags iface) FlagUp ≠ 0%N
  ∧ N.land (Flags iface) FlagLoopback = 0%N
  ∧ strings.HasPrefix (IfName iface) "lo" = false
  ∧ strings.HasPrefix (IfName iface) "docker" = false
  ∧ strings.HasPrefix (IfName iface) "veth" = false
  ∧ strings.HasPrefix (IfName iface) "br-" = false.
Proof.
  unfold is_main. rewrite !andb_true_iff, !negb_true_iff.
  intros (((((Hup & Hloop) & Hlo) & Hdocker) & Hveth) & Hbr).
  apply N.eqb_neq in Hup. apply N.eqb_eq in Hloop. done.
Qed.

Lemma first_main_spec (l : list Interface) :
  (Forall (λ i, is_main i = false) l ∧ first_main l = "wlan0")
  ∨ ∃ l1 i l2, l = l1 ++ i :: l2 ∧ Forall (λ j, is_main j = false) l1
               ∧ is_main i = true ∧ first_main l = IfName i.
Proof.
  induction l as [|i l IH]; [by left|]. simpl.
  destruct (is_main i) eqn:Hi.
  - right. exists [], i, l. by repeat split.
  - destruct IH as [[Hall Hdef]|(l1 & j & l2 & -> & Hall & Hj & Hfirst)].
    + left. split; [by constructor|done].
    + right. exists (i :: l1), j, l2. repeat split; [by constructor|done..].
Qed.

(** X15: [getMainInterface] fails exactly when [net.Interfaces] fails;
    otherwise it returns the name of the first interface of the list that is
    up, is not a loopback and whose name starts with none of [lo], [docker],
    [veth] and [br-], and [wlan0] when the list has no such interface. *)
Theorem getMainInterface_first (os : OS) :
  (getMainInterface os = None ↔ Interfaces os = None)
  ∧ ∀ l, Interfaces os = Some l →
      (Forall (λ i, is_main i = false) l ∧ getMainInterface os = Some "wlan0")
      ∨ ∃ l1 i l2, l = l1 ++ i :: l2
                   ∧ Forall (λ j, is_main j = false) l1
                   ∧ getMainInterface os = Some (IfName i)
                   ∧ N.land (Flags i) FlagUp ≠ 0%N
                   ∧ N.land (Flags i) FlagLoopback = 0%N
                   ∧ strings.HasPrefix (IfName i) "lo" = false
                   ∧ strings.HasPrefix (IfName i) "docker" = false
                   ∧ strings.HasPrefix (IfName i) "veth" = false
                   ∧ strings.HasPrefix (IfName i) "br-" = false.
Proof.
  unfold getMainInterface. split.
  - by destruct (Interfaces os).
  - intros l ->. simpl.
    destruct (first_main_spec l) as [[Hall ->]|(l1 & i & l2 & -> & Hall & Hi & ->)].
    + by left.
    + right. exists l1, i, l2. split; [done|]. split; [done|]. split; [done|].
      by apply is_main_true.
Qed.

Lemma getMainInterface_first_witness :
  Interfaces Scenario.net_ok = Some [Scenario.lo; Scenario.eth0]
  ∧ getMainInterface Scenario.net_ok = Some "eth0"
  ∧ is_main Scenario.lo = false.
Proof.
  split; [reflexivity|].
  destruct (getMainInterface_first Scenario.net_ok) as [_ Hfirst].
  destruct (Hfirst [Scenario.lo; Scenario.eth0]) as [[_ Hdef]|(l1 & i & l2 & _ & _ & Hi & _)];
    [reflexivity|..]; split; reflexivity.
Defined.

End ProvisionerFacts.

(** ** The create handler *)

Module HandlerFacts.
Import strconv Handlers.

Lemma eqb_empty_false (s : string) : s ≠ "" → String.eqb s "" = false.
Proof. intros Hs. by apply String.eqb_neq. Qed.

(** C4, as the code has it: a request is rejected with status 400, before
    the supervisor or the provisioner is touched, unless its body decodes,
    name, port and directory are all non-empty and the port parses as an
    integer ([strconv.Atoi]; zero and negative numbers pass).  A request
    that passes is answered with status 500, the supervisor untouched, when
    the provisioner returns an error; when the provisioner returns an
    identity, the handler stores a new record under the identity
    [Itoa nextID], with running = false and the interface name and address
    of the identity, and returns that identity with status 200. *)
Theorem handleCreate_validates
    (os : Provisioner.OS) (r : option CreateRequest)
    (a : Supervisor.App) (vm : Provisioner.VLANManager) :
  ((r = None
    ∨ ∃ d, r = Some d
           ∧ (Name d = "" ∨ Port d = "" ∨ Directory d = "" ∨ Atoi (Port d) = None)) →
   ∃ b, handleCreateServerWithVLAN os r a vm
        = (Return (mkResponse StatusBadRequest b), a, vm))
  ∧ (∀ d n, r = Some d → Name d ≠ "" → Port d ≠ "" → Directory d ≠ "" →
            Atoi (Port d) = Some n →
       (∀ e, (Provisioner.CreateVLANInterface os (Port d) vm).1.2 = Some e →
             handleCreateServerWithVLAN os r a vm
             = (Return (mkResponse StatusInternalServerError (VLANErrorText e)), a, vm))
       ∧ (∀ v vm1,
            Provisioner.CreateVLANInterface os (Port d) vm = ((Some v, None), vm1) →
            ∃ a', handleCreateServerWithVLAN os r a vm
                  = (Return (mkResponse StatusOK
                               (CreatedJSON (Itoa (Supervisor.nextID a))
                                  (Provisioner.Name v) (Provisioner.IPv6Address v))),
                     a', vm1)
                  ∧ Supervisor.servers a'
                    = <[Itoa (Supervisor.nextID a) := length (Supervisor.heap a)]>
                        (Supervisor.servers a)
                  ∧ Supervisor.load a' (length (Supervisor.heap a))
                    = Supervisor.mkServer (Itoa (Supervisor.nextID a)) (Name d) (Port d)
                        (Directory d) false (Provisioner.Name v)
                        (Provisioner.IPv6Address v)
                  ∧ (∀ q, q < length (Supervisor.heap a) →
                          Supervisor.load a' q = Supervisor.load a q)
                  ∧ Supervisor.processes a' = Supervisor.processes a)).
Proof.
  split.
  - intros [->|(d & -> & Hbad)]; simpl; [by eexists|].
    destruct Hbad as [Hn|[Hp|[Hd|Hatoi]]].
    + rewrite Hn. simpl. by eexists.
    + rewrite Hp. rewrite orb_true_r. simpl. by eexists.
    + rewrite Hd. rewrite !orb_true_r. by eexists.
    + destruct (_ || _); [by eexists|]. rewrite Hatoi. by eexists.
  - intros d n -> Hname Hport Hdir Hatoi. unfold handleCreateServerWithVLAN.
    rewrite !eqb_empty_false by done. simpl orb. cbv iota. rewrite Hatoi. split.
    + intros e He.
      destruct (ProvisionerFacts.CreateVLANInterface_error os (Port d) vm e He) as [Hvm _].
      destruct (Provisioner.CreateVLANInterface os (Port d) vm) as [[v err] vm1].
      simpl in *. by subst.
    + intros v vm1 ->. simpl. rewrite lookup_insert_eq.
      eexists. split; [reflexivity|]. unfold Supervisor.load, Supervisor.store. simpl.
      split; [done|]. split.
      * rewrite list_lookup_total_alter_eq by (rewrite length_app; simpl; lia).
        by rewrite list_lookup_total_middle.
      * split; [|done]. intros q Hq.
        rewrite list_lookup_total_alter_ne by lia.
        by apply lookup_total_app_l.
Qed.

Lemma handleCreate_validates_witness :
  (∃ b, handleCreateServerWithVLAN Scenario.net_ok
          (Some (mkCreateRequest "web1" "http" "/srv/app")) Supervisor.NewApp Scenario.vm0
        = (Return (mkResponse StatusBadRequest b), Supervisor.NewApp, Scenario.vm0))
  ∧ handleCreateServerWithVLAN Scenario.net_down
      (Some (mkCreateRequest "web1" "9090" "/srv/app")) Supervisor.NewApp Scenario.vm0
    = (Return (mkResponse StatusInternalServerError
                 (VLANErrorText (Provisioner.CreateFailed Provisioner.LinkAddError))),
       Supervisor.NewApp, Scenario.vm0)
  ∧ (handleCreateServerWithVLAN Scenario.net_ok
       (Some (mkCreateRequest "web1" "9090" "/srv/app")) Supervisor.NewApp Scenario.vm0).1.1
    = Return (mkResponse StatusOK
                (CreatedJSON "1" "vlan9090" "2a0e:b107:384:ee25::::9090")).
Proof.
  split; [|split].
  - apply (handleCreate_validates Scenario.net_ok
             (Some (mkCreateRequest "web1" "http" "/srv/app"))).
    right. eexists. split; [reflexivity|]. do 3 right. reflexivity.
  - destruct (handleCreate_validates Scenario.net_down
                (Some (mkCreateRequest "web1" "9090" "/srv/app"))
                Supervisor.NewApp Scenario.vm0) as [_ Hpass].
    destruct (Hpass (mkCreateRequest "web1" "9090" "/srv/app") 9090%Z) as [Herr _];
      [reflexivity | discriminate | discriminate | discriminate | reflexivity |].
    apply Herr. reflexivity.
  - destruct (handleCreate_validates Scenario.net_ok
                (Some (mkCreateRequest "web1" "9090" "/srv/app"))
                Supervisor.NewApp Scenario.vm0) as [_ Hpass].
    destruct (Hpass (mkCreateRequest "web1" "9090" "/srv/app") 9090%Z) as [_ Hok];
      [reflexivity | discriminate | discriminate | discriminate | reflexivity |].
    destruct (Hok (Provisioner.mkVLANInterface "vlan9090" 9090
                     "2a0e:b107:384:ee25::::9090" "9090" true)
                (Provisioner.CreateVLANInterface Scenario.net_ok "9090" Scenario.vm0).2)
      as (a' & Heq & _); [reflexivity|].
    rewrite Heq. reflexivity.
Defined.

(** C4, as the claim states it, fails: the ports ["0"] and ["-1"] are not
    positive integers, and the requests are accepted and their records
    stored. *)
Lemma handleCreate_accepts_nonpositive_port :
  Atoi "0" = Some 0%Z
  ∧ Atoi "-1" = Some (-1)%Z
  ∧ (handleCreateServerWithVLAN Scenario.net_ok
       (Some (mkCreateRequest "web1" "0" "/srv/app")) Supervisor.NewApp Scenario.vm0).1.1
    = Return (mkResponse StatusOK (CreatedJSON "1" "vlan0" "2a0e:b107:384:ee25::::0"))
  ∧ Supervisor.records
      (handleCreateServerWithVLAN Scenario.net_ok
         (Some (mkCreateRequest "web1" "0" "/srv/app")) Supervisor.NewApp Scenario.vm0).1.2
    !! "1"
    = Some (Supervisor.mkServer "1" "web1" "0" "/srv/app" false "vlan0"
              "2a0e:b107:384:ee25::::0")
  ∧ (handleCreateServerWithVLAN Scenario.net_ok
       (Some (mkCreateRequest "web1" "-1" "/srv/app")) Supervisor.NewApp Scenario.vm0).1.1
    = Return (mkResponse StatusOK (CreatedJSON "1" "vlan-1" "2a0e:b107:384:ee25::::-1"))
  ∧ Supervisor.records
      (handleCreateServerWithVLAN Scenario.net_ok
         (Some (mkCreateRequest "web1" "-1" "/srv/app")) Supervisor.NewApp Scenario.vm0).1.2
    !! "1"
    = Some (Supervisor.mkServer "1" "web1" "-1" "/srv/app" false "vlan-1"
              "2a0e:b107:384:ee25::::-1").
Proof. vm_compute. repeat split. Qed.

(** *** The other handlers *)

Lemma validation_passes (d : CreateRequest) :
  Name d ≠ "" → Port d ≠ "" → Directory d ≠ "" →
  String.eqb (Name d) "" || String.eqb (Port d) "" || String.eqb (Directory d) "" = false.
Proof. intros Hn Hp Hd. by rewrite !eqb_empty_false. Qed.

Lemma validation_fails (d : CreateRequest) :
  Name d = "" ∨ Port d = "" ∨ Directory d = "" →
  String.eqb (Name d) "" || String.eqb (Port d) "" || String.eqb (Directory d) "" = true.
Proof.
  intros [-> | [-> | ->]]; simpl; [done| |]; by rewrite ?orb_true_r.
Qed.

Lemma StopServer_fields os id a q :
  ∃ b, Supervisor.load (Supervisor.StopServer os id a).2 q
       = Supervisor.set_Running b (Supervisor.load a q).
Proof.
  assert (Hsame : ∃ b, Supervisor.load a q
                       = Supervisor.set_Running b (Supervisor.load a q)).
  { exists (Supervisor.Running (Supervisor.load a q)).
    symmetry. apply SupervisorFacts.set_Running_same. }
  assert (Hstore : ∀ pr p,
             ∃ b, Supervisor.load
                    (Supervisor.store (Supervisor.set_Running false) p
                       (Supervisor.mkApp (Supervisor.heap a) (Supervisor.servers a)
                          (Supervisor.nextID a) pr)) q
                  = Supervisor.set_Running b (Supervisor.load a q)).
  { intros pr p. unfold Supervisor.load, Supervisor.store. simpl.
    rewrite list_lookup_total_alter. case_decide as Hpq; [|exact Hsame].
    destruct Hpq as [-> _]. by exists false. }
  unfold Supervisor.StopServer.
  destruct (Supervisor.servers a !! id) as [p|]; [|exact Hsame].
  destruct (negb _); [exact Hsame|].
  destruct (Supervisor.processes a !! id) as [cmd|];
    [destruct (Supervisor.Kill os cmd)|]; [apply Hstore|exact Hsame|].
  destruct a as [h m n pr]. apply Hstore.
Qed.

Lemma UpdateServer_fields os id name port directory a p :
  Supervisor.servers a !! id = Some p → p < length (Supervisor.heap a) →
  ∃ b, Supervisor.load (Supervisor.UpdateServer os id name port directory a).2 p
       = Supervisor.set_config name port directory
           (Supervisor.set_Running b (Supervisor.load a p)).
Proof.
  intros Hp Hlen. unfold Supervisor.UpdateServer. rewrite Hp. cbn [snd].
  destruct (Supervisor.Running _).
  - rewrite SupervisorFacts.load_store_eq
      by (by rewrite SupervisorFacts.StopServer_heap_length).
    destruct (StopServer_fields os id a p) as [b ->]. by exists b.
  - rewrite SupervisorFacts.load_store_eq by done.
    exists (Supervisor.Running (Supervisor.load a p)).
    by rewrite SupervisorFacts.set_Running_same.
Qed.

(** X16: [handleUpdateServer] answers 400 and changes nothing unless the
    body decodes, name, port and directory are non-empty and the port parses
    as an integer; for a request that passes it answers 404 and changes
    nothing when the identity is unknown, and otherwise answers 200 with the
    record carrying the new name, port and directory and the interface name
    and address it had before, also when the port has changed. *)
Theorem handleUpdateServer_outcome
    (os : Supervisor.OS) (id : string) (r : option CreateRequest) (a : Supervisor.App) :
  ((r = None
    ∨ ∃ d, r = Some d
           ∧ (Name d = "" ∨ Port d = "" ∨ Directory d = "" ∨ Atoi (Port d) = None)) →
   ∃ b, handleUpdateServer os id r a = (mkReply StatusBadRequest b, a))
  ∧ (∀ d n, r = Some d → Name d ≠ "" → Port d ≠ "" → Directory d ≠ "" →
            Atoi (Port d) = Some n →
       (Supervisor.servers a !! id = None →
        handleUpdateServer os id r a
        = (mkReply StatusNotFound (Text "Server not found"), a))
       ∧ (∀ p, Supervisor.servers a !! id = Some p → p < length (Supervisor.heap a) →
            (handleUpdateServer os id r a).1 = mkReply StatusOK NoBody
            ∧ Supervisor.Name (Supervisor.load (handleUpdateServer os id r a).2 p) = Name d
            ∧ Supervisor.Port (Supervisor.load (handleUpdateServer os id r a).2 p) = Port d
            ∧ Supervisor.Directory (Supervisor.load (handleUpdateServer os id r a).2 p)
              = Directory d
            ∧ Supervisor.VLANInterface (Supervisor.load (handleUpdateServer os id r a).2 p)
              = Supervisor.VLANInterface (Supervisor.load a p)
            ∧ Supervisor.IPv6Address (Supervisor.load (handleUpdateServer os id r a).2 p)
              = Supervisor.IPv6Address (Supervisor.load a p))).
Proof.
  split.
  - intros [->|(d & -> & Hbad)]; simpl; [by eexists|].
    destruct Hbad as [Hn|[Hp|[Hd|Hatoi]]];
      [rewrite validation_fails by auto; by eexists..|].
    destruct (_ || _); [by eexists|]. rewrite Hatoi. by eexists.
  - intros d n -> Hname Hport Hdir Hatoi. unfold handleUpdateServer.
    rewrite validation_passes, Hatoi by done. split.
    + intros Hnone. unfold Supervisor.UpdateServer. by rewrite Hnone.
    + intros p Hp Hlen.
      destruct (UpdateServer_fields os id (Name d) (Port d) (Directory d) a p Hp Hlen)
        as [b Hload].
      assert (Htrue : (Supervisor.UpdateServer os id (Name d) (Port d) (Directory d) a).1
                      = true).
      { unfold Supervisor.UpdateServer. by rewrite Hp. }
      destruct (Supervisor.UpdateServer os id (Name d) (Port d) (Directory d) a)
        as [success a1].
      simpl in *. subst success. simpl. by rewrite Hload.
Qed.

Lemma handleUpdateServer_outcome_witness :
  (∃ b, handleUpdateServer Scenario.os_ok "1" (Some (mkCreateRequest "web2" "" "/srv"))
          Scenario.twins = (mkReply StatusBadRequest b, Scenario.twins))
  ∧ handleUpdateServer Scenario.os_ok "7" (Some (mkCreateRequest "web2" "9091" "/srv"))
      Scenario.twins = (mkReply StatusNotFound (Text "Server not found"), Scenario.twins)
  ∧ Supervisor.IPv6Address
      (Supervisor.load
         (handleUpdateServer Scenario.os_ok "1"
            (Some (mkCreateRequest "web2" "9091" "/srv")) Scenario.twins).2 0)
    = "2a0e:b107:384:ee25::::8080".
Proof.
  split; [|split].
  - apply (handleUpdateServer_outcome Scenario.os_ok "1"
             (Some (mkCreateRequest "web2" "" "/srv")) Scenario.twins).
    right. eexists. split; [reflexivity|]. right. left. reflexivity.
  - destruct (handleUpdateServer_outcome Scenario.os_ok "7"
                (Some (mkCreateRequest "web2" "9091" "/srv")) Scenario.twins)
      as [_ Hpass].
    destruct (Hpass (mkCreateRequest "web2" "9091" "/srv") 9091%Z) as [Hnone _];
      [reflexivity | discriminate | discriminate | discriminate | reflexivity |].
    apply Hnone. reflexivity.
  - destruct (handleUpdateServer_outcome Scenario.os_ok "1"
                (Some (mkCreateRequest "web2" "9091" "/srv")) Scenario.twins)
      as [_ Hpass].
    destruct (Hpass (mkCreateRequest "web2" "9091" "/srv") 9091%Z) as [_ Hsome];
      [reflexivity | discriminate | discriminate | discriminate | reflexivity |].
    destruct (Hsome 0) as (_ & _ & _ & _ & _ & Haddr);
      [reflexivity | vm_compute; lia|].
    rewrite Haddr. reflexivity.
Defined.

Lemma DeleteServer_result os id a :
  (Supervisor.DeleteServer os id a).1 = bool_decide (is_Some (Supervisor.servers a !! id)).
Proof.
  unfold Supervisor.DeleteServer.
  destruct (Supervisor.servers a !! id) as [p|]; cbn [fst].
  - by rewrite bool_decide_eq_true_2 by eauto.
  - rewrite bool_decide_eq_false_2; [done|]. by intros [? ?].
Qed.

Lemma DeleteServer_unknown os id a :
  Supervisor.servers a !! id = None → Supervisor.DeleteServer os id a = (false, a).
Proof. intros Hnone. unfold Supervisor.DeleteServer. by rewrite Hnone. Qed.

(** X17: [handleDeleteServerWithVLAN] answers 404 and changes neither the
    supervisor nor the provisioner when the identity is unknown.  For a
    known identity the record leaves the server map whatever happens next:
    the answer is 200, the provisioner untouched, when the port of the
    record is empty or not registered, and 206, the identity still
    registered, when the deletion command fails. *)
Theorem handleDelete_outcome
    (os : Supervisor.OS) (net : Provisioner.OS) (id : string)
    (a : Supervisor.App) (vm : Provisioner.VLANManager) :
  (Supervisor.servers a !! id = None →
   handleDeleteServerWithVLAN os net id a vm
   = (Return (mkReply StatusNotFound (Text "Server not found")), a, vm))
  ∧ (is_Some (Supervisor.servers a !! id) →
     Supervisor.servers (handleDeleteServerWithVLAN os net id a vm).1.2
     = delete id (Supervisor.servers a))
  ∧ (∀ p, Supervisor.servers a !! id = Some p →
       Supervisor.Port (Supervisor.load a p) = ""
       ∨ Provisioner.portToVLAN vm !! Supervisor.Port (Supervisor.load a p) = None →
       (handleDeleteServerWithVLAN os net id a vm).1.1 = Return (mkReply StatusOK NoBody)
       ∧ (handleDeleteServerWithVLAN os net id a vm).2 = vm)
  ∧ (∀ p name vlan, Supervisor.servers a !! id = Some p →
       Supervisor.Port (Supervisor.load a p) ≠ "" →
       Provisioner.portToVLAN vm !! Supervisor.Port (Supervisor.load a p) = Some name →
       Provisioner.interfaces vm !! name = Some vlan →
       Provisioner.Run net (Provisioner.link_delete vlan) = false →
       (handleDeleteServerWithVLAN os net id a vm).1.1
       = Return (mkReply StatusPartialContent (ReleaseErrorText Provisioner.RemoveFailed))
       ∧ (handleDeleteServerWithVLAN os net id a vm).2 = vm).
Proof.
  unfold handleDeleteServerWithVLAN.
  pose proof (DeleteServer_result os id a) as Hres.
  pose proof (SupervisorFacts.DeleteServer_registry os id a) as [Hmap _].
  split; [|split; [|split]].
  - intros Hnone. by rewrite (DeleteServer_unknown os id a Hnone), Hnone.
  - intros Hsome. destruct (Supervisor.DeleteServer os id a) as [success a1].
    cbn [fst snd] in *. rewrite bool_decide_eq_true_2 in Hres by done. subst success. simpl.
    destruct (negb _); [|done].
    by destruct (Provisioner.RemoveVLANInterface net _ vm) as [[[e|]|] vm1].
  - intros p Hp Hport. rewrite Hp.
    destruct (Supervisor.DeleteServer os id a) as [success a1].
    cbn [fst snd] in *. rewrite bool_decide_eq_true_2 in Hres by eauto. subst success. simpl.
    destruct Hport as [->|Hnone]; [done|].
    destruct (negb _); [|done].
    unfold Provisioner.RemoveVLANInterface. by rewrite Hnone.
  - intros p name vlan Hp Hport Hname Hvlan Hrun. rewrite Hp.
    destruct (Supervisor.DeleteServer os id a) as [success a1].
    cbn [fst snd] in *. rewrite bool_decide_eq_true_2 in Hres by eauto. subst success. simpl.
    rewrite eqb_empty_false by done. simpl.
    unfold Provisioner.RemoveVLANInterface. by rewrite Hname, Hvlan, Hrun.
Qed.

Lemma handleDelete_outcome_witness :
  handleDeleteServerWithVLAN Scenario.os_ok Scenario.net_ok "7" Scenario.twins
    Scenario.second_8080.2
  = (Return (mkReply StatusNotFound (Text "Server not found")), Scenario.twins,
     Scenario.second_8080.2)
  ∧ Supervisor.servers
      (handleDeleteServerWithVLAN Scenario.os_ok Scenario.net_down "1" Scenario.twins
         Scenario.second_8080.2).1.2 !! "1" = None
  ∧ (handleDeleteServerWithVLAN Scenario.os_ok Scenario.net_down "1" Scenario.twins
       Scenario.second_8080.2).1.1
    = Return (mkReply StatusPartialContent (ReleaseErrorText Provisioner.RemoveFailed)).
Proof.
  destruct (handleDelete_outcome Scenario.os_ok Scenario.net_ok "7" Scenario.twins
              Scenario.second_8080.2) as (Hnone & _).
  destruct (handleDelete_outcome Scenario.os_ok Scenario.net_down "1" Scenario.twins
              Scenario.second_8080.2) as (_ & Hmap & _ & Hpartial).
  split; [apply Hnone; reflexivity|]. split.
  - rewrite Hmap by (vm_compute; eauto). apply lookup_delete_eq.
  - destruct (Hpartial 0 "vlan8080"
                (Provisioner.set_Active true
                   (Provisioner.derive "2a0e:b107:384:ee25::/64" "8080" 8080)))
      as [Hreply _]; [reflexivity | discriminate | reflexivity..|].
    exact Hreply.
Defined.

(** X18: no check is made that a port is used by one server only: when two
    servers have the same port and one of them is deleted through the
    handler, the identity of the port is released, while the other server
    stays in the map with its record, interface name and address included,
    unchanged. *)
Theorem handleDelete_releases_shared_port
    (os : Supervisor.OS) (net : Provisioner.OS) (id1 id2 : string) (p1 p2 : nat)
    (name : string) (vlan : Provisioner.VLANInterface)
    (a : Supervisor.App) (vm : Provisioner.VLANManager) :
  Supervisor.servers a !! id1 = Some p1 → Supervisor.servers a !! id2 = Some p2 →
  p1 ≠ p2 →
  Supervisor.Port (Supervisor.load a p1) = Supervisor.Port (Supervisor.load a p2) →
  Supervisor.Port (Supervisor.load a p1) ≠ "" →
  Provisioner.portToVLAN vm !! Supervisor.Port (Supervisor.load a p1) = Some name →
  Provisioner.interfaces vm !! name = Some vlan →
  Provisioner.Run net (Provisioner.link_delete vlan) = true →
  (handleDeleteServerWithVLAN os net id1 a vm).1.1 = Return (mkReply StatusOK NoBody)
  ∧ Supervisor.servers (handleDeleteServerWithVLAN os net id1 a vm).1.2 !! id2 = Some p2
  ∧ Supervisor.load (handleDeleteServerWithVLAN os net id1 a vm).1.2 p2
    = Supervisor.load a p2
  ∧ Provisioner.GetVLANForPort (Supervisor.Port (Supervisor.load a p2))
      (handleDeleteServerWithVLAN os net id1 a vm).2 = None.
Proof.
  intros H1 H2 Hne Hsame Hport Hname Hvlan Hrun.
  assert (Hid : id1 ≠ id2) by (intros ->; congruence).
  unfold handleDeleteServerWithVLAN. rewrite H1.
  pose proof (DeleteServer_result os id1 a) as Hres.
  pose proof (SupervisorFacts.DeleteServer_registry os id1 a) as [Hmap _].
  pose proof (SupervisorFacts.DeleteServer_frame os id1 a p2) as Hframe.
  destruct (Supervisor.DeleteServer os id1 a) as [success a1].
  cbn [fst snd] in *. rewrite bool_decide_eq_true_2 in Hres by eauto. subst success. simpl.
  rewrite eqb_empty_false by done. simpl.
  unfold Provisioner.RemoveVLANInterface. rewrite Hname, Hvlan, Hrun. simpl.
  split; [done|]. split; [by rewrite Hmap, lookup_delete_ne|].
  split; [apply Hframe; congruence|].
  unfold Provisioner.GetVLANForPort. simpl. by rewrite <- Hsame, lookup_delete_eq.
Qed.

Lemma handleDelete_releases_shared_port_witness :
  (Supervisor.servers Scenario.twins !! "1" = Some 0
   ∧ Supervisor.servers Scenario.twins !! "2" = Some 1
   ∧ Supervisor.Port (Supervisor.load Scenario.twins 0) = "8080"
   ∧ Supervisor.Port (Supervisor.load Scenario.twins 1) = "8080")
  ∧ Supervisor.load
      (handleDeleteServerWithVLAN Scenario.os_ok Scenario.net_ok "1" Scenario.twins
         Scenario.second_8080.2).1.2 1
    = Supervisor.mkServer "2" "web2" "8080" "/srv/other" false "vlan8080"
        "2a0e:b107:384:ee25::::8080"
  ∧ Provisioner.GetVLANForPort "8080"
      (handleDeleteServerWithVLAN Scenario.os_ok Scenario.net_ok "1" Scenario.twins
         Scenario.second_8080.2).2 = None.
Proof.
  split; [repeat split|].
  destruct (handleDelete_releases_shared_port Scenario.os_ok Scenario.net_ok "1" "2" 0 1
              "vlan8080"
              (Provisioner.set_Active true
                 (Provisioner.derive "2a0e:b107:384:ee25::/64" "8080" 8080))
              Scenario.twins Scenario.second_8080.2)
    as (_ & _ & Hload & Hget);
    [reflexivity | reflexivity | lia | reflexivity | discriminate | reflexivity..|].
  split; [by rewrite Hload | exact Hget].
Defined.

Lemma handleCreate_with_identity net d n v vm1 a vm :
  Name d ≠ "" → Port d ≠ "" → Directory d ≠ "" → Atoi (Port d) = Some n →
  Provisioner.CreateVLANInterface net (Port d) vm = ((Some v, None), vm1) →
  handleCreateServerWithVLAN net (Some d) a vm
  = (Return (mkResponse StatusOK
               (CreatedJSON (Itoa (Supervisor.nextID a)) (Provisioner.Name v)
                  (Provisioner.IPv6Address v))),
     Supervisor.store
       (Supervisor.set_vlan (Provisioner.Name v) (Provisioner.IPv6Address v))
       (length (Supervisor.heap a))
       (Supervisor.CreateServer (Name d) (Port d) (Directory d) a).2,
     vm1).
Proof.
  intros Hname Hport Hdir Hatoi Hcreate. unfold handleCreateServerWithVLAN.
  rewrite validation_passes, Hatoi, Hcreate by done. simpl.
  by rewrite lookup_insert_eq.
Qed.

Lemma created_record net d n v vm1 a vm :
  Name d ≠ "" → Port d ≠ "" → Directory d ≠ "" → Atoi (Port d) = Some n →
  Provisioner.CreateVLANInterface net (Port d) vm = ((Some v, None), vm1) →
  Supervisor.servers (handleCreateServerWithVLAN net (Some d) a vm).1.2
  = <[Itoa (Supervisor.nextID a) := length (Supervisor.heap a)]> (Supervisor.servers a)
  ∧ Supervisor.processes (handleCreateServerWithVLAN net (Some d) a vm).1.2
    = Supervisor.processes a
  ∧ Supervisor.load (handleCreateServerWithVLAN net (Some d) a vm).1.2
      (length (Supervisor.heap a))
    = Supervisor.mkServer (Itoa (Supervisor.nextID a)) (Name d) (Port d) (Directory d)
        false (Provisioner.Name v) (Provisioner.IPv6Address v).
Proof.
  intros Hname Hport Hdir Hatoi Hcreate.
  rewrite (handleCreate_with_identity net d n v vm1 a vm) by done. simpl.
  split; [done|]. split; [done|].
  unfold Supervisor.load. simpl.
  rewrite list_lookup_total_alter_eq by (rewrite length_app; simpl; lia).
  by rewrite list_lookup_total_middle.
Qed.



(** X20: a create request for a port that already has an identity is
    accepted without any command being run: whatever the operating system
    would answer, the handler answers 200, leaves the provisioner as it is,
    and the new record carries the interface name and address of the
    identity already registered for the port. *)
Theorem handleCreate_shares_identity
    (net : Provisioner.OS) (d : CreateRequest) (n : Z) (v : Provisioner.VLANInterface)
    (a : Supervisor.App) (vm : Provisioner.VLANManager) :
  Name d ≠ "" → Port d ≠ "" → Directory d ≠ "" → Atoi (Port d) = Some n →
  Provisioner.GetVLANForPort (Port d) vm = Some v →
  (handleCreateServerWithVLAN net (Some d) a vm).1.1
  = Return (mkResponse StatusOK
              (CreatedJSON (Itoa (Supervisor.nextID a)) (Provisioner.Name v)
                 (Provisioner.IPv6Address v)))
  ∧ (handleCreateServerWithVLAN net (Some d) a vm).2 = vm
  ∧ Supervisor.records (handleCreateServerWithVLAN net (Some d) a vm).1.2
    !! Itoa (Supervisor.nextID a)
    = Some (Supervisor.mkServer (Itoa (Supervisor.nextID a)) (Name d) (Port d)
              (Directory d) false (Provisioner.Name v) (Provisioner.IPv6Address v)).
Proof.
  intros Hname Hport Hdir Hatoi Hget.
  assert (Hcreate : Provisioner.CreateVLANInterface net (Port d) vm
                    = ((Some v, None), vm)).
  { unfold Provisioner.GetVLANForPort in Hget.
    destruct (Provisioner.portToVLAN vm !! Port d) as [name|] eqn:Hreg; [|done].
    by rewrite (ProvisionerFacts.CreateVLANInterface_registered net _ vm name), Hget. }
  destruct (created_record net d n v vm a vm Hname Hport Hdir Hatoi Hcreate)
    as (Hmap & _ & Hload).
  split; [|split].
  - by rewrite (handleCreate_with_identity net d n v vm a vm).
  - by rewrite (handleCreate_with_identity net d n v vm a vm).
  - unfold Supervisor.records. by rewrite lookup_fmap, Hmap, lookup_insert_eq, <- Hload.
Qed.

Lemma handleCreate_shares_identity_witness :
  Provisioner.GetVLANForPort "8080" Scenario.first_8080.2
  = Some (Provisioner.set_Active true
            (Provisioner.derive "2a0e:b107:384:ee25::/64" "8080" 8080))
  ∧ Scenario.second_8080.1.1
    = Return (mkResponse StatusOK (CreatedJSON "2" "vlan8080" "2a0e:b107:384:ee25::::8080"))
  ∧ Scenario.second_8080.2 = Scenario.first_8080.2.
Proof.
  split; [reflexivity|].
  destruct (handleCreate_shares_identity Scenario.net_down
              (mkCreateRequest "web2" "8080" "/srv/other") 8080%Z
              (Provisioner.set_Active true
                 (Provisioner.derive "2a0e:b107:384:ee25::/64" "8080" 8080))
              Scenario.first_8080.1.2 Scenario.first_8080.2)
    as (Hreply & Hvm & _);
    [discriminate | discriminate | discriminate | reflexivity | reflexivity |].
  split; [exact Hreply | exact Hvm].
Defined.

Lemma StartServer_false os id a :
  (Supervisor.StartServer os id a).1 = false → (Supervisor.StartServer os id a).2 = a.
Proof.
  unfold Supervisor.StartServer. destruct (Supervisor.servers a !! id) as [p|]; [|done].
  destruct (Supervisor.Running _); [done|]. by destruct (Supervisor.Start os _).
Qed.

Lemma StopServer_false os id a :
  (Supervisor.StopServer os id a).1 = false → (Supervisor.StopServer os id a).2 = a.
Proof.
  unfold Supervisor.StopServer. destruct (Supervisor.servers a !! id) as [p|]; [|done].
  destruct (negb _); [done|].
  by destruct (Supervisor.processes a !! id) as [cmd|]; [destruct (Supervisor.Kill os cmd)|].
Qed.

(** X29: the start and stop handlers answer 200 exactly when the
    supervisor call returns [true], and an answer 400 means that nothing has
    changed; the status handler never changes the state, answers 404 exactly
    for an identity the map does not hold, and otherwise reports the running
    flag of the record. *)
Theorem start_stop_status_handlers (os : Supervisor.OS) (id : string) (a : Supervisor.App) :
  (Code (handleStartServerWithVLAN os id a).1 = StatusOK
   ↔ (Supervisor.StartServer os id a).1 = true)
  ∧ (Code (handleStartServerWithVLAN os id a).1 = StatusBadRequest →
     (handleStartServerWithVLAN os id a).2 = a)
  ∧ (Code (handleStopServerWithVLAN os id a).1 = StatusOK
     ↔ (Supervisor.StopServer os id a).1 = true)
  ∧ (Code (handleStopServerWithVLAN os id a).1 = StatusBadRequest →
     (handleStopServerWithVLAN os id a).2 = a)
  ∧ (handleServerStatus id a).2 = a
  ∧ (Code (handleServerStatus id a).1 = StatusNotFound
     ↔ Supervisor.servers a !! id = None)
  ∧ (∀ s, Supervisor.records a !! id = Some s →
          (handleServerStatus id a).1
          = mkReply StatusOK (RunningJSON (Supervisor.Running s))).
Proof.
  split; [|split; [|split; [|split; [|split; [|split]]]]].
  - unfold handleStartServerWithVLAN.
    by destruct (Supervisor.StartServer os id a) as [[|] a1].
  - unfold handleStartServerWithVLAN. pose proof (StartServer_false os id a) as Hfalse.
    destruct (Supervisor.StartServer os id a) as [[|] a1]; [done|].
    intros _. by apply Hfalse.
  - unfold handleStopServerWithVLAN.
    by destruct (Supervisor.StopServer os id a) as [[|] a1].
  - unfold handleStopServerWithVLAN. pose proof (StopServer_false os id a) as Hfalse.
    destruct (Supervisor.StopServer os id a) as [[|] a1]; [done|].
    intros _. by apply Hfalse.
  - unfold handleServerStatus, Supervisor.GetServerStatus.
    by destruct (Supervisor.servers a !! id).
  - unfold handleServerStatus, Supervisor.GetServerStatus.
    by destruct (Supervisor.servers a !! id).
  - intros s Hs. unfold handleServerStatus.
    by rewrite (SupervisorFacts.GetServerStatus_records id a s Hs).
Qed.

Lemma start_stop_status_handlers_witness :
  Code (handleStartServerWithVLAN Scenario.os_ok "1" Scenario.started).1 = StatusBadRequest
  ∧ (handleStartServerWithVLAN Scenario.os_ok "1" Scenario.started).2 = Scenario.started
  ∧ Code (handleStopServerWithVLAN Scenario.os_ok "1" Scenario.started).1 = StatusOK
  ∧ (handleServerStatus "1" Scenario.started).1 = mkReply StatusOK (RunningJSON true).
Proof.
  destruct (start_stop_status_handlers Scenario.os_ok "1" Scenario.started)
    as (_ & Hunchanged & Hstop & _ & _ & _ & Hstatus).
  assert (Hbad : Code (handleStartServerWithVLAN Scenario.os_ok "1" Scenario.started).1
                 = StatusBadRequest) by reflexivity.
  split; [exact Hbad|]. split; [exact (Hunchanged Hbad)|].
  split; [apply Hstop; reflexivity|].
  apply (Hstatus (Supervisor.mkServer "1" "web1" "9090" "/srv/app" true "" "")).
  vm_compute. reflexivity.
Defined.

(** X30: [handleGetServers] changes nothing and answers 200 with the
    records the map holds at that moment, one for each identity. *)
Theorem handleGetServers_lists (a : Supervisor.App) :
  (handleGetServers a).2 = a
  ∧ (handleGetServers a).1
    = mkReply StatusOK (ServersJSON (map_to_list (Supervisor.records a)).*2)
  ∧ length (map_to_list (Supervisor.records a)).*2 = size (Supervisor.servers a)
  ∧ ∀ s, s ∈ (map_to_list (Supervisor.records a)).*2
         ↔ ∃ id, Supervisor.records a !! id = Some s.
Proof.
  split; [done|]. split; [|split].
  - unfold handleGetServers, Supervisor.GetServers, Supervisor.records. simpl.
    do 2 f_equal. rewrite map_to_list_fmap, <- !list_fmap_compose.
    apply list_fmap_ext. by intros i [id p].
  - rewrite length_fmap, length_map_to_list. unfold Supervisor.records.
    apply map_size_fmap.
  - intros s. rewrite list_elem_of_fmap. split.
    + intros ([id s'] & -> & Hin%elem_of_map_to_list). by exists id.
    + intros (id & Hs). exists (id, s). split; [done|]. by apply elem_of_map_to_list.
Qed.

Lemma handleGetServers_lists_witness :
  Supervisor.records Scenario.started !! "1"
  = Some (Supervisor.mkServer "1" "web1" "9090" "/srv/app" true "" "")
  ∧ (handleGetServers Scenario.started).1
    = mkReply StatusOK
        (ServersJSON [Supervisor.mkServer "1" "web1" "9090" "/srv/app" true "" ""])
  ∧ Supervisor.mkServer "1" "web1" "9090" "/srv/app" true "" ""
    ∈ (map_to_list (Supervisor.records Scenario.started)).*2.
Proof.
  assert (Hrec : Supervisor.records Scenario.started !! "1"
                 = Some (Supervisor.mkServer "1" "web1" "9090" "/srv/app" true "" ""))
    by (vm_compute; reflexivity).
  destruct (handleGetServers_lists Scenario.started) as (_ & Hreply & _ & Hin).
  split; [exact Hrec|]. split; [rewrite Hreply; vm_compute; reflexivity|].
  apply Hin. by exists "1".
Defined.

End HandlerFacts.

(** ** Authentication *)

Module AuthFacts.
Import Auth.

Lemma HasSuffix_unfold (s suffix : string) :
  strings.HasSuffix s suffix
  = if String.eqb s suffix then true
    else match s with
         | EmptyString => false
         | String _ s' => strings.HasSuffix s' suffix
         end.
Proof. by destruct s. Qed.

Lemma HasSuffix_spec (s suffix : string) :
  strings.HasSuffix s suffix = true ↔ ∃ front, s = front +:+ suffix.
Proof.
  split.
  - induction s as [|c s IH]; rewrite HasSuffix_unfold.
    + destruct (String.eqb_spec "" suffix) as [<-|]; [|done]. by exists "".
    + destruct (String.eqb_spec (String c s) suffix) as [<-|_]; [by exists ""|].
      intros (front & ->)%IH. by exists (String c front).
  - intros (front & ->). induction front as [|c front IH]; rewrite HasSuffix_unfold.
    + by rewrite String.eqb_refl.
    + destruct (String.eqb _ suffix); [done|]. exact IH.
Qed.

Example login_path_bypass :
  strings.HasSuffix "/api/auth/login" "/auth/login" = true
  ∧ strings.HasSuffix "/static/auth/login" "/auth/login" = true
  ∧ strings.HasSuffix "/api/auth/logout" "/auth/login" = false.
Proof. repeat split. Qed.

(** X21: a header [Bearer t] yields the token [t], whatever the query
    parameter is and also when [t] is empty; without the header, and for a
    header without a space, the token is the query parameter. *)
Theorem extractToken_bearer :
  (∀ path t q, extractToken (mkRequest path ("Bearer " +:+ t) q) = t)
  ∧ (∀ path q, extractToken (mkRequest path "" q) = q)
  ∧ (∀ r, strings.split_space (Authorization r) = None → extractToken r = QueryToken r).
Proof.
  split; [done|]. split; [done|].
  intros r Hsplit. unfold extractToken. rewrite Hsplit. by destruct (negb _).
Qed.

Lemma extractToken_bearer_witness :
  strings.split_space "Bearer" = None
  ∧ extractToken (mkRequest "/api/servers" "Bearer" "abc") = "abc"
  ∧ extractToken (mkRequest "/api/servers" "Bearer " "abc") = "".
Proof.
  destruct extractToken_bearer as (Hbearer & _ & Hquery).
  split; [reflexivity|]. split.
  - apply (Hquery (mkRequest "/api/servers" "Bearer" "abc")). reflexivity.
  - apply (Hbearer "/api/servers" "" "abc").
Defined.

Lemma isValidToken_true (token : string) (now : instant) (am : AuthMiddleware) :
  (isValidToken token now am).1 = true
  ↔ ∃ s, sessions am !! token = Some s ∧ (now ≤ ExpiresAt s)%Z.
Proof.
  unfold isValidToken. destruct (sessions am !! token) as [s|]; simpl.
  - destruct (Z.ltb_spec (ExpiresAt s) now); simpl.
    + split; [done|]. intros (? & [= <-] & ?). lia.
    + split; [|done]. intros _. exists s. split; [done|lia].
  - split; [done|]. by intros (? & ? & _).
Qed.

Lemma Middleware_next (r : Request) (now : instant) (am : AuthMiddleware) :
  (Middleware r now am).1 = Next
  ↔ strings.HasSuffix (Path r) "/auth/login" = true
    ∨ (extractToken r ≠ ""
       ∧ ∃ s, sessions am !! extractToken r = Some s ∧ (now ≤ ExpiresAt s)%Z).
Proof.
  unfold Middleware. destruct (strings.HasSuffix _ _); [by split; eauto|].
  destruct (String.eqb_spec (extractToken r) "") as [Hempty|Hne]; simpl.
  - split; [done|]. by intros [?|[? _]].
  - pose proof (isValidToken_true (extractToken r) now am) as Hvalid.
    destruct (isValidToken (extractToken r) now am) as [[|] am1]; simpl in *.
    + split; [|done]. intros _. right. split; [done|]. by apply Hvalid.
    + split; [done|]. intros [?|[_ Hs]]; [done|]. by apply Hvalid in Hs.
Qed.

(** X22: the middleware hands a request on exactly when its path ends with
    [/auth/login], or it carries a non-empty token that has a session which
    has not expired at that instant; a request handed on leaves the sessions
    as they were. *)
Theorem Middleware_sound (r : Request) (now : instant) (am : AuthMiddleware) :
  ((Middleware r now am).1 = Next
   ↔ (∃ front, Path r = front +:+ "/auth/login")
     ∨ (extractToken r ≠ ""
        ∧ ∃ s, sessions am !! extractToken r = Some s ∧ (now ≤ ExpiresAt s)%Z))
  ∧ ((Middleware r now am).1 = Next → (Middleware r now am).2 = am).
Proof.
  split; [by rewrite Middleware_next, HasSuffix_spec|].
  unfold Middleware. destruct (strings.HasSuffix _ _); [done|].
  destruct (String.eqb _ ""); [done|].
  unfold isValidToken. destruct (sessions am !! extractToken r) as [s|]; [|done].
  by destruct (ExpiresAt s <? now)%Z.
Qed.

Lemma Middleware_sound_witness :
  (Middleware Scenario.api_request 5 Scenario.logged_in).1 = Next
  ∧ (Middleware Scenario.api_request 5 Scenario.logged_in).2 = Scenario.logged_in
  ∧ (Middleware (mkRequest "/x/auth/login" "" "") 5 Scenario.am0).1 = Next.
Proof.
  destruct (Middleware_sound Scenario.api_request 5 Scenario.logged_in) as [Hiff Hsame].
  destruct (Middleware_sound (mkRequest "/x/auth/login" "" "") 5 Scenario.am0)
    as [Hlogin _].
  assert (Hnext : (Middleware Scenario.api_request 5 Scenario.logged_in).1 = Next).
  { apply Hiff. right. split; [discriminate|].
    exists (mkSession "c2Vzc2lvbg==" 0 session_length). split; [reflexivity|].
    vm_compute. discriminate. }
  split; [exact Hnext|]. split; [exact (Hsame Hnext)|].
  apply Hlogin. left. by exists "/x".
Defined.

Lemma HandleLogin_success (tok : string) (created now : instant) (am : AuthMiddleware) :
  HandleLogin (Some (password am)) (Some tok) created now am
  = (mkResponse StatusOK (TokenJSON tok (now + session_length)),
     mkAuthMiddleware (password am)
       (<[tok := mkSession tok created (now + session_length)]> (sessions am))).
Proof. unfold HandleLogin. by rewrite String.eqb_refl. Qed.

(** X23: a login with the configured password, for which a token could be
    generated, answers 200 with that token and the instant 24 hours after
    the login; a later request that bears the token is handed on by the
    middleware exactly when it arrives no later than that instant. *)
Theorem login_session_window
    (tok : string) (created now now' : instant) (r : Request) (am : AuthMiddleware) :
  tok ≠ "" → strings.HasSuffix (Path r) "/auth/login" = false →
  Authorization r = "Bearer " +:+ tok →
  (HandleLogin (Some (password am)) (Some tok) created now am).1
  = mkResponse StatusOK (TokenJSON tok (now + 86400000000000))
  ∧ ((Middleware r now' (HandleLogin (Some (password am)) (Some tok) created now am).2).1
     = Next
     ↔ (now' ≤ now + 86400000000000)%Z).
Proof.
  intros Htok Hpath Hauth. rewrite HandleLogin_success. split; [done|].
  assert (Hextract : extractToken r = tok).
  { destruct r as [path auth q]. simpl in Hauth. by subst auth. }
  rewrite Middleware_next, Hpath, Hextract. cbn [snd sessions].
  rewrite lookup_insert_eq. split.
  - intros [?|[_ (s & [= <-] & Hle)]]; [done|]. exact Hle.
  - intros Hle. right. split; [done|]. eexists. split; [done|]. exact Hle.
Qed.

Lemma login_session_window_witness :
  ((Middleware Scenario.api_request 86400000000000 Scenario.logged_in).1 = Next)
  ∧ ¬ ((Middleware Scenario.api_request 86400000000001 Scenario.logged_in).1 = Next).
Proof.
  destruct (login_session_window "c2Vzc2lvbg==" 0 0 86400000000000 Scenario.api_request
              Scenario.am0) as [_ Hin]; [discriminate | reflexivity | reflexivity|].
  destruct (login_session_window "c2Vzc2lvbg==" 0 0 86400000000001 Scenario.api_request
              Scenario.am0) as [_ Hout]; [discriminate | reflexivity | reflexivity|].
  split.
  - apply Hin. lia.
  - intros Hnext. apply Hout in Hnext. lia.
Defined.

(** X24: [HandleLogin] answers 200 exactly when the body decodes, the
    password is the configured one and a token could be generated; in every
    other case the sessions are unchanged. *)
Theorem HandleLogin_outcome
    (loginData generated : option string) (created now : instant) (am : AuthMiddleware) :
  (Status (HandleLogin loginData generated created now am).1 = StatusOK
   ↔ loginData = Some (password am) ∧ is_Some generated)
  ∧ (Status (HandleLogin loginData generated created now am).1 ≠ StatusOK →
     (HandleLogin loginData generated created now am).2 = am).
Proof.
  unfold HandleLogin. destruct loginData as [given|]; simpl.
  - destruct (String.eqb_spec given (password am)) as [->|Hne]; simpl.
    + destruct generated as [tok|]; simpl.
      * split; [split; eauto|done].
      * split; [|done]. split; [done|]. by intros [_ [? ?]].
    + split; [|done]. split; [done|]. intros [[= ?] _]. done.
  - split; [|done]. split; [done|]. by intros [? _].
Qed.

Lemma HandleLogin_outcome_witness :
  Status (HandleLogin (Some "admin") (Some "c2Vzc2lvbg==") 0 0 Scenario.am0).1
  ≠ StatusOK
  ∧ (HandleLogin (Some "admin") (Some "c2Vzc2lvbg==") 0 0 Scenario.am0).2 = Scenario.am0
  ∧ Status (HandleLogin (Some "admin123") (Some "c2Vzc2lvbg==") 0 0 Scenario.am0).1
    = StatusOK.
Proof.
  destruct (HandleLogin_outcome (Some "admin") (Some "c2Vzc2lvbg==") 0 0 Scenario.am0)
    as [_ Hsame].
  destruct (HandleLogin_outcome (Some "admin123") (Some "c2Vzc2lvbg==") 0 0 Scenario.am0)
    as [Hiff _].
  assert (Hbad : Status (HandleLogin (Some "admin") (Some "c2Vzc2lvbg==") 0 0
                           Scenario.am0).1 ≠ StatusOK) by (vm_compute; discriminate).
  split; [exact Hbad|]. split; [exact (Hsame Hbad)|].
  apply Hiff. split; [reflexivity|eauto].
Defined.

(** X25: [HandleLogout] without a token answers 400 and changes nothing;
    with a token it answers 200, and from then on that token is not valid at
    any instant and the middleware answers 401 to every request that bears
    it on a path that does not end with [/auth/login]; the sessions of the
    other tokens are untouched. *)
Theorem HandleLogout_invalidates (r : Request) (am : AuthMiddleware) :
  (extractToken r = "" →
   HandleLogout r am = (mkResponse StatusBadRequest (ErrorText "No token provided"), am))
  ∧ (extractToken r ≠ "" →
     (HandleLogout r am).1 = mkResponse StatusOK NoBody
     ∧ (∀ now, (isValidToken (extractToken r) now (HandleLogout r am).2).1 = false)
     ∧ (∀ r' now, extractToken r' = extractToken r →
          strings.HasSuffix (Path r') "/auth/login" = false →
          (Middleware r' now (HandleLogout r am).2).1
          = Answer (mkResponse StatusUnauthorized (ErrorText "Authentication required")))
     ∧ (∀ t, t ≠ extractToken r →
          sessions (HandleLogout r am).2 !! t = sessions am !! t)).
Proof.
  unfold HandleLogout. split.
  - by intros ->.
  - intros Hne. rewrite (proj2 (String.eqb_neq _ _) Hne). cbn [fst snd].
    split; [done|].
    assert (Hinvalid : ∀ now,
               isValidToken (extractToken r) now
                 (mkAuthMiddleware (password am) (delete (extractToken r) (sessions am)))
               = (false,
                  mkAuthMiddleware (password am)
                    (delete (extractToken r) (sessions am)))).
    { intros now. unfold isValidToken. simpl. by rewrite lookup_delete_eq. }
    split; [intros now; by rewrite Hinvalid|]. split.
    + intros r' now Htok Hpath. unfold Middleware.
      rewrite Hpath, Htok, (proj2 (String.eqb_neq _ _) Hne). by rewrite Hinvalid.
    + intros t Ht. simpl. by rewrite lookup_delete_ne.
Qed.

Lemma HandleLogout_invalidates_witness :
  extractToken Scenario.api_request ≠ ""
  ∧ (Middleware Scenario.api_request 5 Scenario.logged_in).1 = Next
  ∧ (Middleware Scenario.api_request 5
       (HandleLogout Scenario.api_request Scenario.logged_in).2).1
    = Answer (mkResponse StatusUnauthorized (ErrorText "Authentication required")).
Proof.
  assert (Htok : extractToken Scenario.api_request ≠ "") by discriminate.
  split; [exact Htok|]. split; [reflexivity|].
  destruct (HandleLogout_invalidates Scenario.api_request Scenario.logged_in) as [_ Hout].
  destruct (Hout Htok) as (_ & _ & Hreject & _).
  apply Hreject; reflexivity.
Defined.

Lemma cleanup_lookup (c : instant) (am : AuthMiddleware) (t : string) (s : Session) :
  sessions (cleanupExpiredSessions c am) !! t = Some s
  ↔ sessions am !! t = Some s ∧ (c ≤ ExpiresAt s)%Z.
Proof.
  unfold cleanupExpiredSessions. simpl. rewrite map_lookup_filter_Some. simpl.
  split; intros [? ?]; (split; [done|lia]).
Qed.

Lemma cleanup_isValidToken (c now : instant) (am : AuthMiddleware) (t : string) :
  (c ≤ now)%Z →
  (isValidToken t now (cleanupExpiredSessions c am)).1 = (isValidToken t now am).1.
Proof.
  intros Hc.
  destruct (isValidToken t now am).1 eqn:Hvalid.
  - apply isValidToken_true. apply isValidToken_true in Hvalid as (s & Hs & Hle).
    exists s. split; [|done]. apply cleanup_lookup. split; [done|lia].
  - destruct (isValidToken t now (cleanupExpiredSessions c am)).1 eqn:Hvalid'; [|done].
    apply isValidToken_true in Hvalid' as (s & [Hs _]%cleanup_lookup & Hle).
    rewrite <- Hvalid. symmetry. apply isValidToken_true. eauto.
Qed.

(** X26: [cleanupExpiredSessions] keeps exactly the sessions that have not
    expired at the instant it runs, and is never observed: at every later
    instant each token is as valid as without the cleanup, and the middleware
    gives every request the same verdict. *)
Theorem cleanup_unobserved (c : instant) (am : AuthMiddleware) :
  (∀ t s, sessions (cleanupExpiredSessions c am) !! t = Some s
          ↔ sessions am !! t = Some s ∧ (c ≤ ExpiresAt s)%Z)
  ∧ (∀ t now, (c ≤ now)%Z →
       (isValidToken t now (cleanupExpiredSessions c am)).1
       = (isValidToken t now am).1)
  ∧ (∀ r now, (c ≤ now)%Z →
       (Middleware r now (cleanupExpiredSessions c am)).1 = (Middleware r now am).1).
Proof.
  split; [apply cleanup_lookup|]. split; [intros t now; by apply cleanup_isValidToken|].
  intros r now Hc. unfold Middleware.
  destruct (strings.HasSuffix _ _); [done|]. destruct (String.eqb _ ""); [done|].
  pose proof (cleanup_isValidToken c now am (extractToken r) Hc) as Hsame.
  destruct (isValidToken (extractToken r) now (cleanupExpiredSessions c am)) as [v1 am1].
  destruct (isValidToken (extractToken r) now am) as [v2 am2].
  simpl in Hsame. subst v1. by destruct v2.
Qed.

Lemma cleanup_unobserved_witness :
  sessions (cleanupExpiredSessions 86400000000001 Scenario.logged_in) !! "c2Vzc2lvbg=="
  = None
  ∧ (Middleware Scenario.api_request 86400000000002
       (cleanupExpiredSessions 86400000000001 Scenario.logged_in)).1
    = (Middleware Scenario.api_request 86400000000002 Scenario.logged_in).1
  ∧ sessions (cleanupExpiredSessions 5 Scenario.logged_in) !! "c2Vzc2lvbg=="
    = Some (mkSession "c2Vzc2lvbg==" 0 86400000000000).
Proof.
  destruct (cleanup_unobserved 86400000000001 Scenario.logged_in) as (_ & _ & Hsame).
  destruct (cleanup_unobserved 5 Scenario.logged_in) as (Hkeep & _).
  split; [reflexivity|]. split; [apply Hsame; lia|].
  apply Hkeep. split; [reflexivity|]. vm_compute. discriminate.
Defined.

End AuthFacts.

(** ** The VLAN pool *)

Module PoolFacts.
Import strconv Pool.

Lemma scan_spec (count : nat) :
  ∀ (i : Z) (vm : VLANManager),
    match scan count i vm with
    | Some vlan =>
        ∃ k, (k < count)%nat ∧ vlan = "vlan" +:+ Itoa (i + Z.of_nat k)
             ∧ used vm vlan = false
             ∧ ∀ j, (j < k)%nat → used vm ("vlan" +:+ Itoa (i + Z.of_nat j)) = true
    | None =>
        ∀ j, (j < count)%nat → used vm ("vlan" +:+ Itoa (i + Z.of_nat j)) = true
    end.
Proof.
  induction count as [|count IH]; intros i vm; simpl; [lia|].
  destruct (used vm ("vlan" +:+ Itoa i)) eqn:Hi; simpl.
  - specialize (IH (i + 1)%Z vm). destruct (scan count (i + 1) vm) as [vlan|].
    + destruct IH as (k & Hk & -> & Hfree & Hbelow). exists (S k).
      split; [lia|]. split; [f_equal; f_equal; lia|]. split; [done|].
      intros [|j] Hj; [by rewrite Z.add_0_r|].
      replace (i + Z.of_nat (S j))%Z with (i + 1 + Z.of_nat j)%Z by lia.
      apply Hbelow. lia.
    + intros [|j] Hj; [by rewrite Z.add_0_r|].
      replace (i + Z.of_nat (S j))%Z with (i + 1 + Z.of_nat j)%Z by lia.
      apply IH. lia.
  - exists 0%nat. split; [lia|]. rewrite Z.add_0_r. split; [done|]. split; [done|]. lia.
Qed.

(** X27: when [GetFreeVLAN] returns a name, it is [vlan] followed by a
    number from 100 to 199, it was free, every name with a smaller number in
    that range was in use, and it is marked used afterwards, so that the next
    call returns another name; it fails, changing nothing, exactly when all
    the hundred names are in use. *)
Theorem GetFreeVLAN_lowest (vm : VLANManager) :
  (∀ vlan, (GetFreeVLAN vm).1 = Some vlan →
     (∃ i, (100 ≤ i < 200)%Z ∧ vlan = "vlan" +:+ Itoa i
           ∧ ∀ j, (100 ≤ j < i)%Z → used vm ("vlan" +:+ Itoa j) = true)
     ∧ used vm vlan = false
     ∧ usedVLANs (GetFreeVLAN vm).2 = <[vlan := true]> (usedVLANs vm)
     ∧ (GetFreeVLAN (GetFreeVLAN vm).2).1 ≠ Some vlan)
  ∧ ((GetFreeVLAN vm).1 = None
     ↔ ∀ i, (100 ≤ i < 200)%Z → used vm ("vlan" +:+ Itoa i) = true)
  ∧ ((GetFreeVLAN vm).1 = None → (GetFreeVLAN vm).2 = vm).
Proof.
  assert (Hfree : ∀ vm' vlan, (GetFreeVLAN vm').1 = Some vlan → used vm' vlan = false).
  { intros vm' vlan. unfold GetFreeVLAN. pose proof (scan_spec 100 100 vm') as Hscan.
    destruct (scan 100 100 vm') as [v|]; [|done]. simpl. intros [= <-].
    by destruct Hscan as (k & _ & _ & ? & _). }
  unfold GetFreeVLAN in *. pose proof (scan_spec 100 100 vm) as Hscan.
  destruct (scan 100 100 vm) as [v|] eqn:Hv; simpl.
  - destruct Hscan as (k & Hk & Hname & Hunused & Hbelow).
    split; [|split; [|done]].
    + intros vlan [= <-]. split; [|split; [done|split; [done|]]].
      * exists (100 + Z.of_nat k)%Z. split; [lia|]. split; [done|].
        intros j Hj. replace j with (100 + Z.of_nat (Z.to_nat (j - 100)))%Z by lia.
        apply Hbelow. lia.
      * intros Hagain. apply Hfree in Hagain. unfold used in Hagain. simpl in Hagain.
        by rewrite lookup_insert_eq in Hagain.
    + split; [done|]. intros Hall.
      rewrite Hname, Hall in Hunused by lia. done.
  - split; [done|]. split; [|done]. split; [|done]. intros _ i Hi.
    replace i with (100 + Z.of_nat (Z.to_nat (i - 100)))%Z by lia.
    apply Hscan. lia.
Qed.

Lemma GetFreeVLAN_lowest_witness :
  (GetFreeVLAN (NewVLANManager "10.0.0.0/24")).1 = Some "vlan100"
  ∧ used (NewVLANManager "10.0.0.0/24") "vlan100" = false
  ∧ (GetFreeVLAN (GetFreeVLAN (NewVLANManager "10.0.0.0/24")).2).1 ≠ Some "vlan100".
Proof.
  assert (Hfirst : (GetFreeVLAN (NewVLANManager "10.0.0.0/24")).1 = Some "vlan100")
    by reflexivity.
  destruct (GetFreeVLAN_lowest (NewVLANManager "10.0.0.0/24")) as [Hsome _].
  destruct (Hsome "vlan100" Hfirst) as (_ & Hfree & _ & Hnext).
  split; [exact Hfirst|]. split; [exact Hfree | exact Hnext].
Defined.

Lemma scan_ext (vm1 vm2 : VLANManager) (count : nat) :
  (∀ vlan, used vm1 vlan = used vm2 vlan) →
  ∀ i, scan count i vm1 = scan count i vm2.
Proof.
  intros Hsame. induction count as [|count IH]; intros i; simpl; [done|].
  by rewrite Hsame, IH.
Qed.

(** X28: releasing the name [GetFreeVLAN] has just returned leaves every
    name as free or as used as it was before the two calls, and the next
    [GetFreeVLAN] returns that same name again. *)
Theorem GetFreeVLAN_then_release (vm : VLANManager) (vlan : string) :
  (GetFreeVLAN vm).1 = Some vlan →
  (∀ other, used (ReleaseVLAN vlan (GetFreeVLAN vm).2) other = used vm other)
  ∧ (GetFreeVLAN (ReleaseVLAN vlan (GetFreeVLAN vm).2)).1 = Some vlan.
Proof.
  intros Hget.
  assert (Hused : ∀ other, used (ReleaseVLAN vlan (GetFreeVLAN vm).2) other
                           = used vm other).
  { intros other. unfold GetFreeVLAN in *. pose proof (scan_spec 100 100 vm) as Hscan.
    destruct (scan 100 100 vm) as [v|]; [|done]. simpl in Hget. injection Hget as ->.
    destruct Hscan as (k & _ & _ & Hfree & _).
    unfold used, ReleaseVLAN in *. simpl.
    destruct (decide (other = vlan)) as [->|Hne].
    - by rewrite lookup_delete_eq, Hfree.
    - by rewrite lookup_delete_ne, lookup_insert_ne. }
  split; [done|].
  unfold GetFreeVLAN at 1.
  rewrite (scan_ext _ vm 100 Hused 100).
  unfold GetFreeVLAN in Hget. by destruct (scan 100 100 vm).
Qed.

Lemma GetFreeVLAN_then_release_witness :
  (GetFreeVLAN (NewVLANManager "10.0.0.0/24")).1 = Some "vlan100"
  ∧ (GetFreeVLAN (ReleaseVLAN "vlan100"
                    (GetFreeVLAN (NewVLANManager "10.0.0.0/24")).2)).1 = Some "vlan100".
Proof.
  split; [reflexivity|].
  apply (GetFreeVLAN_then_release (NewVLANManager "10.0.0.0/24") "vlan100"). reflexivity.
Defined.

End PoolFacts.
